(** * Market Strategy Dashboard (app.py): a shallow embedding

    The script is a linear pipeline: fetch two panels, join and clean them
    into one daily table, append three derived columns, then render three
    indicator panels and one rule-based recommendation.

    Modelling conventions.
    - A pandas float cell is an [option Q]: [Some q] is the number [q],
      [None] is NaN, pandas' marker for a missing observation.  Arithmetic
      on cells propagates NaN and comparisons with NaN are false, as in
      Python.  Arithmetic on these cells is exact; they carry what does
      not depend on rounding: which cells are missing, the shape of the
      table, what the page reads and how the rules branch.
    - What the derived columns hold is stated in [AnyArithmetic], the
      same pipeline over any type of cells and any arithmetic, of which
      binary64 ([Binary64], Rocq's primitive floats) is an instance.
    - A DataFrame is a list of column labels and a list of rows, each row
      a timestamp (seconds) with one cell per column.
    - Streamlit calls are recorded as a log of page elements; Python
      exceptions are an explicit outcome.  The two data providers are
      inputs of a render pass: each either returns a panel or raises. *)

From Stdlib Require Import ZArith QArith List String Bool Lia.
From Stdlib Require Floats Uint63.
Import ListNotations.

Local Open Scope Q_scope.

(* ================================================================== *)
(** ** Cells: floats with NaN *)

Definition cell := option Q.
Definition NaN : cell := None.

Definition notna (x : cell) : bool :=
  match x with Some _ => true | None => false end.

Definition Qlt_bool (x y : Q) : bool := negb (Qle_bool y x).

(** [x >= k] and [x > k] on a cell; false on NaN. *)
Definition cell_ge (x : cell) (k : Q) : bool :=
  match x with Some q => Qle_bool k q | None => false end.

Definition cell_gt (x : cell) (k : Q) : bool :=
  match x with Some q => Qlt_bool k q | None => false end.

Definition cell_sub (x y : cell) : cell :=
  match x, y with Some a, Some b => Some (a - b) | _, _ => NaN end.

Definition cell_div (x : cell) (k : Q) : cell :=
  match x with Some a => Some (a / k) | None => NaN end.

(* ================================================================== *)
(** ** Health panel: status tiers and bar colors (app.py 91-105) *)

Inductive tier : Set :=
| Normal      (* "정상 (Normal)" *)
| Warning     (* "주의 (Warning)" *)
| Critical.   (* "위험 (CRITICAL) - 현금화 필요" *)

Inductive delta_color : Set := off | inverse | normal.

(** Lines 92-99: the defaults, then [if spread_val >= 0.05 ... elif
    spread_val > 0 ...]. *)
Definition status (spread_val : cell) : tier * delta_color :=
  let status_msg := Normal in
  let status_color := off in
  if cell_ge spread_val 0.05 then (Critical, inverse)
  else if cell_gt spread_val 0 then (Warning, normal)
  else (status_msg, status_color).

Definition status_msg (spread_val : cell) : tier := fst (status spread_val).
Definition status_color (spread_val : cell) : delta_color :=
  snd (status spread_val).

Inductive color : Set := red | yellow | green.

(** [series >= k] and [series > k]: element-wise comparisons. *)
Definition series_ge (s : list cell) (k : Q) : list bool :=
  map (fun x => cell_ge x k) s.
Definition series_gt (s : list cell) (k : Q) : list bool :=
  map (fun x => cell_gt x k) s.

(** [np.where(cond, a, b)] with two scalars, and with a scalar and an
    array of the condition's length. *)
Definition np_where_scalars {A} (cond : list bool) (a b : A) : list A :=
  map (fun c : bool => if c then a else b) cond.

Fixpoint np_where {A} (cond : list bool) (a : A) (b : list A) : list A :=
  match cond, b with
  | c :: cond', y :: b' => (if c then a else y) :: np_where cond' a b'
  | _, _ => []
  end.

(** Line 105. *)
Definition colors (Rate_Spread : list cell) : list color :=
  np_where (series_ge Rate_Spread 0.05) red
    (np_where_scalars (series_gt Rate_Spread 0) yellow green).

(** The color a tier stands for in the bar chart. *)
Definition tier_color (t : tier) : color :=
  match t with Critical => red | Warning => yellow | Normal => green end.

(* ================================================================== *)
(** ** Tables *)

(** Index entries are timestamps in seconds; a calendar day has 86400. *)
Definition timestamp := Z.
Definition day_of (t : timestamp) : Z := (t / 86400)%Z.
Definition day_start (d : Z) : timestamp := (d * 86400)%Z.

Definition row := (timestamp * list cell)%type.

Record DataFrame := mkDF {
  columns : list string;
  rows : list row
}.

Definition index (df : DataFrame) : list timestamp := map fst (rows df).

(** A row taken out of a table by position: the cells under the labels. *)
Record Series := mkSeries {
  labels : list string;
  vals : list cell
}.

Inductive exn : Set :=
| KeyError (k : string)
| IndexError
| ValueError
| ProviderError (code : nat).   (* whatever a data provider raises *)

Inductive outcome (A : Type) : Type :=
| Returned (a : A)
| Raised (e : exn).
Arguments Returned {A} a.
Arguments Raised {A} e.

(** Sequencing: the first exception ends the computation. *)
Definition and_then {A B} (o : outcome A) (k : A -> outcome B) : outcome B :=
  match o with
  | Returned a => k a
  | Raised e => Raised e
  end.

Notation "x <~ o ; k" := (and_then o (fun x => k))
  (at level 61, o at next level, right associativity).

Fixpoint get_loc (name : string) (cols : list string) : option nat :=
  match cols with
  | [] => None
  | c :: cs => if String.eqb c name then Some 0%nat
               else option_map S (get_loc name cs)
  end.

(** [df[name]]: the column as a list of cells, in row order. *)
Definition getitem (df : DataFrame) (name : string) : outcome (list cell) :=
  match get_loc name (columns df) with
  | Some p => Returned (map (fun r : row => nth p (snd r) NaN) (rows df))
  | None => Raised (KeyError name)
  end.

(** [s[name]] on a row. *)
Definition series_get (s : Series) (name : string) : outcome cell :=
  match get_loc name (labels s) with
  | Some p => Returned (nth p (vals s) NaN)
  | None => Raised (KeyError name)
  end.

Fixpoint replace_nth {A} (p : nat) (x : A) (l : list A) : list A :=
  match l, p with
  | [], _ => []
  | _ :: l', O => x :: l'
  | y :: l', S p' => y :: replace_nth p' x l'
  end.

Fixpoint map2 {A B C} (f : A -> B -> C) (l : list A) (m : list B) : list C :=
  match l, m with
  | a :: l', b :: m' => f a b :: map2 f l' m'
  | _, _ => []
  end.

(** [df[name] = s]: an existing column is overwritten, a new one is
    appended as the last column.  The values are a column on the table's
    own index, in row order, as lines 44-48 compute them; values of
    another number are no such column and are refused (the pipeline
    never assigns any). *)
Definition setitem (df : DataFrame) (name : string) (s : list cell)
  : outcome DataFrame :=
  if negb (List.length s =? List.length (rows df))%nat then Raised ValueError
  else match get_loc name (columns df) with
       | Some p =>
           Returned (mkDF (columns df)
             (map2 (fun (r : row) c => (fst r, replace_nth p c (snd r)))
                   (rows df) s))
       | None =>
           Returned (mkDF (columns df ++ [name])
             (map2 (fun (r : row) c => (fst r, snd r ++ [c])) (rows df) s))
       end.

(** [df.iloc[k]]: a negative position counts from the end. *)
Definition iloc (df : DataFrame) (k : Z) : outcome Series :=
  let n := Z.of_nat (List.length (rows df)) in
  let p := if (k <? 0)%Z then (n + k)%Z else k in
  if ((0 <=? p) && (p <? n))%Z
  then Returned (mkSeries (columns df)
                   (snd (nth (Z.to_nat p) (rows df) (0%Z, []))))
  else Raised IndexError.

(** Element-wise arithmetic of columns of one table. *)
Definition series_div (s : list cell) (k : Q) : list cell :=
  map (fun x => cell_div x k) s.
Definition series_sub (s t : list cell) : list cell := map2 cell_sub s t.

(* ------------------------------------------------------------------ *)
(** *** pd.concat(..., axis=1)

    The outer join of two panels on their index.  Both providers return
    their rows in ascending order of time without repeated timestamps
    (see [valid_panel]); the union of the two indexes is then their
    merge.  A row absent from one panel gets NaN in that panel's
    columns. *)

Definition pad_right (wb : nat) (r : row) : row :=
  (fst r, snd r ++ repeat NaN wb).
Definition pad_left (wa : nat) (r : row) : row :=
  (fst r, repeat NaN wa ++ snd r).

Fixpoint merge_rows (wa wb : nat) (a : list row) : list row -> list row :=
  fix inner (b : list row) : list row :=
    match a, b with
    | [], _ => map (pad_left wa) b
    | _, [] => map (pad_right wb) a
    | ra :: a', rb :: b' =>
        if (fst ra <? fst rb)%Z then pad_right wb ra :: merge_rows wa wb a' b
        else if (fst rb <? fst ra)%Z then pad_left wa rb :: inner b'
        else (fst ra, snd ra ++ snd rb) :: merge_rows wa wb a' b'
    end.

Definition pd_concat (a b : DataFrame) : DataFrame :=
  mkDF (columns a ++ columns b)
       (merge_rows (List.length (columns a)) (List.length (columns b))
                   (rows a) (rows b)).

(* ------------------------------------------------------------------ *)
(** *** resample('D').mean()

    One row per calendar day from the day of the first row to the day of
    the last one; each cell is the mean of the non-missing values of the
    day in that column, NaN when the day has none. *)

Fixpoint present (xs : list cell) : list Q :=
  match xs with
  | [] => []
  | Some q :: xs' => q :: present xs'
  | None :: xs' => present xs'
  end.

Definition Qsum (qs : list Q) : Q := fold_right Qplus 0 qs.

Definition mean (xs : list cell) : cell :=
  match present xs with
  | [] => NaN
  | q :: qs =>
      Some (Qsum (q :: qs) / inject_Z (Z.of_nat (List.length (q :: qs))))
  end.

Definition column_at (j : nat) (rs : list row) : list cell :=
  map (fun r : row => nth j (snd r) NaN) rs.

Definition group_mean (ncols : nat) (group : list row) : list cell :=
  map (fun j => mean (column_at j group)) (seq 0 ncols).

Definition days (d0 d1 : Z) : list Z :=
  map (fun i => (d0 + Z.of_nat i)%Z) (seq 0 (Z.to_nat (d1 - d0 + 1))).

Definition resample_D_mean (df : DataFrame) : DataFrame :=
  match rows df with
  | [] => df
  | r0 :: _ =>
      let d0 := day_of (fst r0) in
      let d1 := day_of (fst (last (rows df) r0)) in
      mkDF (columns df)
        (map (fun d =>
                (day_start d,
                 group_mean (List.length (columns df))
                   (filter (fun r : row => (day_of (fst r) =? d)%Z)
                           (rows df))))
             (days d0 d1))
  end.

(* ------------------------------------------------------------------ *)
(** *** fillna(method='ffill') and dropna() *)

Definition fill_cell (prev cur : cell) : cell :=
  match cur with Some _ => cur | None => prev end.

Fixpoint fill_row (prev cur : list cell) : list cell :=
  match cur with
  | [] => []
  | c :: cur' => fill_cell (hd NaN prev) c :: fill_row (tl prev) cur'
  end.

Fixpoint ffill_from (prev : list cell) (rs : list row) : list row :=
  match rs with
  | [] => []
  | r :: rs' =>
      let filled := fill_row prev (snd r) in
      (fst r, filled) :: ffill_from filled rs'
  end.

Definition fillna_ffill (df : DataFrame) : DataFrame :=
  mkDF (columns df) (ffill_from [] (rows df)).

Definition complete (r : row) : bool := forallb notna (snd r).

Definition dropna (df : DataFrame) : DataFrame :=
  mkDF (columns df) (filter complete (rows df)).

(* ------------------------------------------------------------------ *)
(** *** rolling(window).mean()

    The value at position [i] is the mean of the [window] values ending
    at [i]; it is NaN unless the window holds [window] non-missing
    values (min_periods defaults to the window). *)

Definition trailing (window i : nat) (s : list cell) : list cell :=
  skipn (S i - window) (firstn (S i) s).

Definition window_mean (window : nat) (w : list cell) : cell :=
  if (List.length (present w) =? window)%nat then mean w else NaN.

Definition rolling_mean (window : nat) (s : list cell) : list cell :=
  map (fun i => window_mean window (trailing window i s))
      (seq 0 (List.length s)).

(* ================================================================== *)
(** ** The script: page elements, exceptions, providers *)

Inductive action : Set :=
| Hold          (* "관망 / 홀딩 (Hold)" *)
| BuyTheDip     (* "[기회] 공포에 매수 (Buy the Dip)" *)
| Liquidate.    (* "[비상] 전량 현금화 (System Risk)" *)

Inductive reason : Set :=
| NothingSpecial    (* "특이 사항 없음" *)
| SentimentOnly     (* "유동성은 좋은데 심리만 위축됨 (펀더멘털 양호)" *)
| FundingSqueeze.   (* "금융 시스템 내 자금 경색 감지됨" *)

Inductive message : Set :=
| FredFailed        (* "FRED 데이터 수집 실패. 잠시 후 다시 시도해주세요." *)
| LiquidityHelp
| Conclusion (a : action)   (* "결론: ..." *)
| Because (r : reason).     (* "이유: ..." *)

Inductive figure : Type :=
| fig_liq (x : list timestamp) (Net_Liquidity GSPC : list cell)
| fig_health (x : list timestamp) (Rate_Spread : list cell)
             (marker_color : list color)
| fig_sent (x : list timestamp) (VIX MOVE : list cell).

Inductive element : Type :=
| st_set_page_config
| st_title
| st_markdown              (* st.markdown("---") *)
| st_spinner
| st_header (part : nat)
| st_subheader
| st_expander              (* an expander with its help text *)
| st_metric (label : string) (value : cell) (delta : option cell)
            (color : option delta_color)
| st_caption (t : tier)
| st_plotly_chart (f : figure)
| st_error (m : message)
| st_success (m : message)
| st_info (m : message).

(** A script run: the elements put on the page so far, and either the
    value of the run or the exception that ended it. *)
Definition script (A : Type) : Type := (list element * outcome A)%type.

Definition ret {A} (a : A) : script A := ([], Returned a).

Definition bind {A B} (m : script A) (k : A -> script B) : script B :=
  match m with
  | (log, Returned a) => let (log', r) := k a in (log ++ log', r)
  | (log, Raised e) => (log, Raised e)
  end.

Definition emit (e : element) : script unit := ([e], Returned tt).
Definition lift {A} (o : outcome A) : script A := ([], o).

Notation "x <- m ;; k" := (bind m (fun x => k))
  (at level 61, m at next level, right associativity).
Notation "m ;; k" := (bind m (fun _ => k))
  (at level 61, right associativity).

(** What the two providers answer during this run.  [yf.download]
    answers with one panel per price field. *)
Record world := mkWorld {
  get_data_fred : list string -> outcome DataFrame;
  yf_download : list string -> outcome (list (string * DataFrame))
}.

Fixpoint field (prices : list (string * DataFrame)) (name : string)
  : outcome DataFrame :=
  match prices with
  | [] => Raised (KeyError name)
  | (f, df) :: prices' =>
      if String.eqb f name then Returned df else field prices' name
  end.

Definition fred_tickers : list string :=
  ["WALCL"; "WTREGEN"; "RRPONTSYD"; "SOFR"; "IORB"; "T10Y2Y"]%string.
Definition yf_tickers : list string := ["^GSPC"; "^VIX"; "^MOVE"]%string.

(* ================================================================== *)
(** ** get_market_data (app.py 21-50) *)

(** Lines 39-48: join, clean, derive.  An exception of a step ends the
    block. *)
Definition transform (df_fred df_yf : DataFrame) : outcome DataFrame :=
  let df := pd_concat df_fred df_yf in
  let df := dropna (fillna_ffill (resample_D_mean df)) in
  WALCL <~ getitem df "WALCL" ;
  WTREGEN <~ getitem df "WTREGEN" ;
  RRPONTSYD <~ getitem df "RRPONTSYD" ;
  df <~ setitem df "Net_Liquidity"
          (series_sub (series_sub (series_div WALCL 1000000)
                                  (series_div WTREGEN 1000))
                      (series_div RRPONTSYD 1000)) ;
  SOFR <~ getitem df "SOFR" ;
  IORB <~ getitem df "IORB" ;
  df <~ setitem df "Rate_Spread" (series_sub SOFR IORB) ;
  Net_Liquidity <~ getitem df "Net_Liquidity" ;
  setitem df "Liq_MA20" (rolling_mean 20 Net_Liquidity).

(** One evaluation of the function body (the hourly cache holds its
    value between evaluations).  Only the FRED call is inside the
    [try]. *)
Definition get_market_data (w : world) : script (option DataFrame) :=
  emit st_spinner ;;
  match get_data_fred w fred_tickers with
  | Raised _ =>
      emit (st_error FredFailed) ;;
      ret None
  | Returned df_fred =>
      prices <- lift (yf_download w yf_tickers) ;;
      df_yf <- lift (field prices "Close") ;;
      df <- lift (transform df_fred df_yf) ;;
      ret (Some df)
  end.

(* ================================================================== *)
(** ** The page (app.py 52-162) *)

(** Lines 148-162. *)
Definition recommendation (spread_val vix_val liq_diff : cell)
  : script (action * reason) :=
  let final_action := Hold in
  let reason := NothingSpecial in
  if cell_ge spread_val 0.05 then
    let final_action := Liquidate in
    let reason := FundingSqueeze in
    emit (st_error (Conclusion final_action)) ;;
    emit (st_error (Because reason)) ;;
    ret (final_action, reason)
  else if cell_ge vix_val 25 && cell_gt liq_diff 0 then
    let final_action := BuyTheDip in
    let reason := SentimentOnly in
    emit (st_success (Conclusion final_action)) ;;
    emit (st_info (Because reason)) ;;
    ret (final_action, reason)
  else
    emit (st_info (Conclusion final_action)) ;;
    ret (final_action, reason).

(** Line 67, with the two rows of lines 55-56. *)
Definition liq_diff (df : DataFrame) : outcome cell :=
  match iloc df (-1), iloc df (-5) with
  | Returned last, Returned prev =>
      match series_get last "Net_Liquidity",
            series_get prev "Net_Liquidity" with
      | Returned a, Returned b => Returned (cell_sub a b)
      | Raised e, _ => Raised e
      | _, Raised e => Raised e
      end
  | Raised e, _ => Raised e
  | _, Raised e => Raised e
  end.

(** Lines 55-162: the body of [if df is not None]. *)
Definition presenter (df : DataFrame) : script unit :=
  last <- lift (iloc df (-1)) ;;
  prev <- lift (iloc df (-5)) ;;
  (* Part A: liquidity *)
  emit (st_header 1) ;;
  emit (st_info LiquidityHelp) ;;
  last_liq <- lift (series_get last "Net_Liquidity") ;;
  prev_liq <- lift (series_get prev "Net_Liquidity") ;;
  let liq_diff := cell_sub last_liq prev_liq in
  emit (st_metric "Net Liquidity" last_liq (Some liq_diff) None) ;;
  tga <- lift (series_get last "WTREGEN") ;;
  emit (st_metric "TGA" (cell_div tga 1000) None None) ;;
  rrp <- lift (series_get last "RRPONTSYD") ;;
  emit (st_metric "RRP" (cell_div rrp 1000) None None) ;;
  liq <- lift (getitem df "Net_Liquidity") ;;
  gspc <- lift (getitem df "^GSPC") ;;
  emit (st_plotly_chart (fig_liq (index df) liq gspc)) ;;
  emit st_markdown ;;
  (* Part B: health *)
  emit (st_header 2) ;;
  emit st_expander ;;
  spread_val <- lift (series_get last "Rate_Spread") ;;
  emit (st_metric "SOFR - IORB" spread_val None
          (Some (status_color spread_val))) ;;
  emit (st_caption (status_msg spread_val)) ;;
  spread <- lift (getitem df "Rate_Spread") ;;
  emit (st_plotly_chart (fig_health (index df) spread (colors spread))) ;;
  emit st_markdown ;;
  (* Part C: sentiment *)
  emit (st_header 3) ;;
  emit st_expander ;;
  vix_val <- lift (series_get last "^VIX") ;;
  move_val <- lift (series_get last "^MOVE") ;;
  emit (st_metric "VIX" vix_val None None) ;;
  emit (st_metric "MOVE" move_val None None) ;;
  vix <- lift (getitem df "^VIX") ;;
  move <- lift (getitem df "^MOVE") ;;
  emit (st_plotly_chart (fig_sent (index df) vix move)) ;;
  (* the recommendation *)
  emit st_markdown ;;
  emit st_subheader ;;
  recommendation spread_val vix_val liq_diff ;;
  ret tt.

(** The whole script, top to bottom. *)
Definition app (w : world) : script unit :=
  emit st_set_page_config ;;
  emit st_title ;;
  emit st_markdown ;;
  df <- get_market_data w ;;
  match df with
  | Some df => presenter df
  | None => ret tt
  end.

(* ================================================================== *)
(** ** Panels the providers may return *)

Fixpoint ascending (ts : list timestamp) : bool :=
  match ts with
  | a :: (b :: _) as rest => (a <? b)%Z && ascending rest
  | _ => true
  end.

Definition mem (name : string) (l : list string) : bool :=
  existsb (String.eqb name) l.

(** The same labels, in any order. *)
Definition same_labels (cols tickers : list string) : bool :=
  (List.length cols =? List.length tickers)%nat
  && forallb (fun t => mem t cols) tickers
  && forallb (fun c => mem c tickers) cols.

(** A panel for [tickers]: one column per ticker, rows in ascending order
    of time without repeated timestamps, one cell per column. *)
Definition valid_panel (tickers : list string) (df : DataFrame) : bool :=
  same_labels (columns df) tickers
  && ascending (index df)
  && forallb (fun r : row =>
                (List.length (snd r) =? List.length (columns df))%nat)
             (rows df).

(* ================================================================== *)
(** ** Vocabulary of the statements *)

(** Every row has one cell per column. *)
Definition wf (df : DataFrame) : Prop :=
  forall r, In r (rows df) -> List.length (snd r) = List.length (columns df).

(** No value of the column is missing. *)
Definition all_present (s : list cell) : Prop := forallb notna s = true.

(** The cell of row [r] of [df] under a label. *)
Definition row_get (df : DataFrame) (r : row) (name : string)
  : outcome cell :=
  series_get (mkSeries (columns df) (snd r)) name.

(** The table of line 40, before the derived columns. *)
Definition cleaned (df_fred df_yf : DataFrame) : DataFrame :=
  dropna (fillna_ffill (resample_D_mean (pd_concat df_fred df_yf))).

(** Line 44 on three columns. *)
Definition net_liquidity (WALCL WTREGEN RRPONTSYD : list cell) : list cell :=
  series_sub (series_sub (series_div WALCL 1000000)
                         (series_div WTREGEN 1000))
             (series_div RRPONTSYD 1000).

(** The interval of the line that the specification gives each tier. *)
Definition tier_interval (t : tier) (q : Q) : Prop :=
  match t with
  | Critical => 0.05 <= q
  | Warning => 0 < q /\ q < 0.05
  | Normal => q <= 0
  end.

Definition is_chart (e : element) : bool :=
  match e with st_plotly_chart _ => true | _ => false end.

Definition is_error (e : element) : bool :=
  match e with st_error _ => true | _ => false end.

(** Worlds in which one provider is down. *)
Definition world_fred_down : world :=
  mkWorld (fun _ => Raised (ProviderError 503)) (fun _ => Returned []).

Definition world_yahoo_down : world :=
  mkWorld (fun _ => Returned (mkDF fred_tickers []))
          (fun _ => Raised (ProviderError 429)).

(** What [transform] returns, column by column: [W], [G], [P], [S] and
    [I] are the columns WALCL, WTREGEN, RRPONTSYD, SOFR and IORB of the
    cleaned table. *)
Record transformed (a b df : DataFrame) (W G P S I : list cell) : Prop := {
  tr_WALCL : getitem (cleaned a b) "WALCL" = Returned W;
  tr_WTREGEN : getitem (cleaned a b) "WTREGEN" = Returned G;
  tr_RRPONTSYD : getitem (cleaned a b) "RRPONTSYD" = Returned P;
  tr_SOFR : getitem (cleaned a b) "SOFR" = Returned S;
  tr_IORB : getitem (cleaned a b) "IORB" = Returned I;
  tr_wf : wf df;
  tr_index : index df = index (cleaned a b);
  tr_length : List.length (rows df) = List.length (rows (cleaned a b));
  tr_columns : forall c, In c (columns df) <->
      In c (columns a ++ columns b) \/
      c = "Net_Liquidity"%string \/ c = "Rate_Spread"%string \/
      c = "Liq_MA20"%string;
  tr_Net_Liquidity :
    getitem df "Net_Liquidity" = Returned (net_liquidity W G P);
  tr_Rate_Spread : getitem df "Rate_Spread" = Returned (series_sub S I);
  tr_Liq_MA20 :
    getitem df "Liq_MA20" = Returned (rolling_mean 20 (net_liquidity W G P));
  tr_raw : forall name,
      name <> "Net_Liquidity"%string -> name <> "Rate_Spread"%string ->
      name <> "Liq_MA20"%string ->
      getitem df name = getitem (cleaned a b) name
}.

(* ================================================================== *)
(** ** Sample inputs *)

Definition num (z : Z) : cell := Some (inject_Z z).

(** Six consecutive days on which both providers report every series;
    the balance sheet grows by one trillion a day. *)
Definition six_days_fred : DataFrame :=
  mkDF fred_tickers
    [ (day_start 0, [num 1000000; num 0; num 0; Some 5.33; Some 5.40; num 1]);
      (day_start 1, [num 2000000; num 0; num 0; Some 5.33; Some 5.40; num 1]);
      (day_start 2, [num 3000000; num 0; num 0; Some 5.33; Some 5.40; num 1]);
      (day_start 3, [num 4000000; num 0; num 0; Some 5.33; Some 5.40; num 1]);
      (day_start 4, [num 5000000; num 0; num 0; Some 5.33; Some 5.40; num 1]);
      (day_start 5, [num 6000000; num 0; num 0; Some 5.33; Some 5.40; num 1])
    ].

Definition six_days_yf : DataFrame :=
  mkDF ["^GSPC"; "^MOVE"; "^VIX"]%string
    [ (day_start 0, [num 5000; num 100; num 15]);
      (day_start 1, [num 5010; num 101; num 16]);
      (day_start 2, [num 5020; num 102; num 17]);
      (day_start 3, [num 5030; num 103; num 18]);
      (day_start 4, [num 5040; num 104; num 19]);
      (day_start 5, [num 5050; num 105; num 20]) ].

Definition six_days : world :=
  mkWorld (fun _ => Returned six_days_fred)
          (fun _ => Returned [("Close"%string, six_days_yf)]).

(** Thirty days: the balance sheet is reported once a week, the rates on
    five days out of seven, the market closes on no weekend. *)
Definition thirty_days_fred : DataFrame :=
  mkDF fred_tickers
    (map (fun i : nat =>
            let d := Z.of_nat i in
            let weekly (x : cell) := if (d mod 7 =? 2)%Z then x else NaN in
            let daily (x : cell) := if (d mod 7 <? 5)%Z then x else NaN in
            (day_start d,
             [weekly (num (7200000 - 3000 * d)); daily (num (700 + d));
              daily (num (400 - 2 * d)); daily (Some 5.31); daily (Some 5.40);
              daily (Some 0.25)]))
         (seq 0 30)).

Definition thirty_days_yf : DataFrame :=
  mkDF ["^GSPC"; "^MOVE"; "^VIX"]%string
    (map (fun i : nat =>
            let d := Z.of_nat i in
            ((day_start d + 57600)%Z,
             [num (5000 + d); num (110 - d); num (14 + d)]))
         (filter (fun i : nat => (Z.of_nat i mod 7 <? 5)%Z) (seq 0 30))).

Definition thirty_days : world :=
  mkWorld (fun _ => Returned thirty_days_fred)
          (fun _ => Returned [("Close"%string, thirty_days_yf)]).

(** The delta as the specification words it: the last row against the
    row five positions before the last. *)
Definition liq_diff_five_rows_prior (df : DataFrame) : outcome cell :=
  match iloc df (-1), iloc df (-1 - 5) with
  | Returned last, Returned prev =>
      match series_get last "Net_Liquidity",
            series_get prev "Net_Liquidity" with
      | Returned a, Returned b => Returned (cell_sub a b)
      | Raised e, _ => Raised e
      | _, Raised e => Raised e
      end
  | Raised e, _ => Raised e
  | _, Raised e => Raised e
  end.

(** The labels the page reads. *)
Definition page_labels : list string :=
  ["Net_Liquidity"; "WTREGEN"; "RRPONTSYD"; "^GSPC"; "Rate_Spread";
   "^VIX"; "^MOVE"]%string.

(** The deltas shown by the liquidity metric of a page. *)
Fixpoint liquidity_deltas (log : list element) : list cell :=
  match log with
  | [] => []
  | st_metric label _ (Some delta) _ :: log' =>
      if String.eqb label "Net Liquidity" then delta :: liquidity_deltas log'
      else liquidity_deltas log'
  | _ :: log' => liquidity_deltas log'
  end.

(* ================================================================== *)
(** ** Vocabulary of the further properties *)

(** The columns that lines 44 and 46 read, in the order they read them. *)
Definition derived_inputs : list string :=
  ["WALCL"; "WTREGEN"; "RRPONTSYD"; "SOFR"; "IORB"]%string.

(** The columns that lines 44-48 write, in the order they write them. *)
Definition derived_labels : list string :=
  ["Net_Liquidity"; "Rate_Spread"; "Liq_MA20"]%string.

(** The first of [names] that is no label of [cols]. *)
Definition first_missing (names cols : list string) : option string :=
  find (fun t => negb (mem t cols)) names.

(** A run of calendar days without a gap, from day [d0] on. *)
Definition day_run (d0 : Z) (n : nat) : list timestamp :=
  map (fun i => day_start (d0 + Z.of_nat i)) (seq 0 n).

(** The table of an outcome, empty when it raised. *)
Definition the_table (o : outcome DataFrame) : DataFrame :=
  match o with
  | Returned df => df
  | Raised _ => mkDF [] []
  end.

Definition thirty_days_table : DataFrame :=
  the_table (transform thirty_days_fred thirty_days_yf).

(** The cells of the row with timestamp [t], if there is one. *)
Fixpoint row_at (t : timestamp) (rs : list row) : option (list cell) :=
  match rs with
  | [] => None
  | r :: rs' => if (fst r =? t)%Z then Some (snd r) else row_at t rs'
  end.

(** A row of an outer join of a panel of [wa] columns with one of [wb]
    columns, from what each panel has at the timestamp. *)
Definition outer_join_row (wa wb : nat) (ra rb : option (list cell))
  : option (list cell) :=
  match ra, rb with
  | Some x, Some y => Some (x ++ y)
  | Some x, None => Some (x ++ repeat NaN wb)
  | None, Some y => Some (repeat NaN wa ++ y)
  | None, None => None
  end.

(** The cell of column position [j] in the row at position [i]. *)
Definition cell_at (rs : list row) (i j : nat) : cell :=
  nth j (snd (nth i rs (0%Z, []))) NaN.

(** A series with a gap, and a table to assign it to. *)
Definition gap_series : list cell := [Some 1; NaN; Some 3; Some 4; Some 5].

Definition six_days_cleaned : DataFrame :=
  cleaned six_days_fred six_days_yf.

(** The action the recommendation settles on. *)
Definition recommended (spread_val vix_val liq_diff : cell)
  : option action :=
  match snd (recommendation spread_val vix_val liq_diff) with
  | Returned (a, _) => Some a
  | Raised _ => None
  end.

(** A column of a table, empty when the label is missing; its value in
    the [k]-th row from the end. *)
Definition column (df : DataFrame) (name : string) : list cell :=
  match getitem df name with
  | Returned col => col
  | Raised _ => []
  end.

Definition from_end (df : DataFrame) (k : nat) (name : string) : cell :=
  nth (List.length (rows df) - k) (column df name) NaN.

(** The three panels and the recommendation, as the page shows them
    for a table. *)
Definition liquidity_panel (df : DataFrame) : list element :=
  [ st_header 1; st_info LiquidityHelp;
    st_metric "Net Liquidity" (from_end df 1 "Net_Liquidity")
      (Some (cell_sub (from_end df 1 "Net_Liquidity")
                      (from_end df 5 "Net_Liquidity"))) None;
    st_metric "TGA" (cell_div (from_end df 1 "WTREGEN") 1000) None None;
    st_metric "RRP" (cell_div (from_end df 1 "RRPONTSYD") 1000) None None;
    st_plotly_chart
      (fig_liq (index df) (column df "Net_Liquidity") (column df "^GSPC"));
    st_markdown ].

Definition health_panel (df : DataFrame) : list element :=
  [ st_header 2; st_expander;
    st_metric "SOFR - IORB" (from_end df 1 "Rate_Spread") None
      (Some (status_color (from_end df 1 "Rate_Spread")));
    st_caption (status_msg (from_end df 1 "Rate_Spread"));
    st_plotly_chart
      (fig_health (index df) (column df "Rate_Spread")
                  (colors (column df "Rate_Spread")));
    st_markdown ].

Definition sentiment_panel (df : DataFrame) : list element :=
  [ st_header 3; st_expander;
    st_metric "VIX" (from_end df 1 "^VIX") None None;
    st_metric "MOVE" (from_end df 1 "^MOVE") None None;
    st_plotly_chart
      (fig_sent (index df) (column df "^VIX") (column df "^MOVE")) ].

Definition recommendation_block (df : DataFrame) : list element :=
  [st_markdown; st_subheader]
  ++ fst (recommendation (from_end df 1 "Rate_Spread")
            (from_end df 1 "^VIX")
            (cell_sub (from_end df 1 "Net_Liquidity")
                      (from_end df 5 "Net_Liquidity"))).

Definition is_fred_failed (e : element) : bool :=
  match e with st_error FredFailed => true | _ => false end.

(** The Yahoo panel of the six days without the VIX. *)
Definition six_days_yf_no_vix : DataFrame :=
  mkDF ["^GSPC"; "^MOVE"]%string
    (map (fun r : row => (fst r, firstn 2 (snd r))) (rows six_days_yf)).

Definition six_days_no_vix_table : DataFrame :=
  the_table (transform six_days_fred six_days_yf_no_vix).

(** The elements the script shows before it fetches. *)
Definition page_top : list element :=
  [st_set_page_config; st_title; st_markdown; st_spinner].

(** Yahoo answers, but with no closing prices. *)
Definition world_no_close : world :=
  mkWorld (fun _ => Returned six_days_fred)
          (fun _ => Returned [("Open"%string, six_days_yf)]).

(** The thirty-day table with the yield curve column blanked. *)
Definition thirty_days_table_blanked : DataFrame :=
  the_table (setitem thirty_days_table "T10Y2Y"
               (repeat NaN (List.length (rows thirty_days_table)))).

(** Yahoo answers with a panel without rows. *)
Definition empty_yf : DataFrame := mkDF yf_tickers [].

Definition world_empty_yahoo : world :=
  mkWorld (fun _ => Returned six_days_fred)
          (fun _ => Returned [("Close"%string, empty_yf)]).

(* ================================================================== *)
(** ** The table pipeline in any arithmetic

    Lines 39-48 once more, for any type of cells and any arithmetic on
    them: what is a missing cell ([isna]), the subtraction and the
    division of two cells, the conversion of an integer literal, the
    mean that [resample] takes of the cells of a day, and the value of
    the rolling mean at the end of a column read so far.  Binary64 with
    IEEE subtraction and division is one instance ([Binary64] below),
    the exact rationals of the definitions above are another.  What is
    stated of values is stated here, so that it holds of the numbers the
    program computes, rounding included. *)

Module AnyArithmetic.
Section Pipeline.

Variable num : Type.
Variable NaN : num.
Variable isna : num -> bool.
Variables sub div : num -> num -> num.
Variable of_int : Z -> num.
Variable day_mean : list num -> num.
Variable rolling_value : nat -> list num -> num.

Definition row := (timestamp * list num)%type.

Record DataFrame := mkDF {
  columns : list string;
  rows : list row
}.

Definition index (df : DataFrame) : list timestamp := map fst (rows df).

Definition getitem (df : DataFrame) (name : string) : outcome (list num) :=
  match get_loc name (columns df) with
  | Some p => Returned (map (fun r : row => nth p (snd r) NaN) (rows df))
  | None => Raised (KeyError name)
  end.

(** [df[name].iloc[i]] for a position [i] counted from the start. *)
Definition value_at (df : DataFrame) (i : nat) (name : string)
  : outcome num :=
  col <~ getitem df name ;
  match nth_error col i with
  | Some c => Returned c
  | None => Raised IndexError
  end.

(** [df[name] = s] for a column [s] computed from columns of [df]
    itself, in row order. *)
Definition setitem (df : DataFrame) (name : string) (s : list num)
  : outcome DataFrame :=
  if negb (List.length s =? List.length (rows df))%nat then Raised ValueError
  else match get_loc name (columns df) with
       | Some p =>
           Returned (mkDF (columns df)
             (map2 (fun (r : row) c => (fst r, replace_nth p c (snd r)))
                   (rows df) s))
       | None =>
           Returned (mkDF (columns df ++ [name])
             (map2 (fun (r : row) c => (fst r, snd r ++ [c])) (rows df) s))
       end.

Definition series_div (s : list num) (k : num) : list num :=
  map (fun x => div x k) s.
Definition series_sub (s t : list num) : list num := map2 sub s t.

Definition pad_right (wb : nat) (r : row) : row :=
  (fst r, snd r ++ repeat NaN wb).
Definition pad_left (wa : nat) (r : row) : row :=
  (fst r, repeat NaN wa ++ snd r).

Fixpoint merge_rows (wa wb : nat) (a : list row) : list row -> list row :=
  fix inner (b : list row) : list row :=
    match a, b with
    | [], _ => map (pad_left wa) b
    | _, [] => map (pad_right wb) a
    | ra :: a', rb :: b' =>
        if (fst ra <? fst rb)%Z then pad_right wb ra :: merge_rows wa wb a' b
        else if (fst rb <? fst ra)%Z then pad_left wa rb :: inner b'
        else (fst ra, snd ra ++ snd rb) :: merge_rows wa wb a' b'
    end.

Definition pd_concat (a b : DataFrame) : DataFrame :=
  mkDF (columns a ++ columns b)
       (merge_rows (List.length (columns a)) (List.length (columns b))
                   (rows a) (rows b)).

Definition column_at (j : nat) (rs : list row) : list num :=
  map (fun r : row => nth j (snd r) NaN) rs.

Definition group_mean (ncols : nat) (group : list row) : list num :=
  map (fun j => day_mean (column_at j group)) (seq 0 ncols).

Definition resample_D_mean (df : DataFrame) : DataFrame :=
  match rows df with
  | [] => df
  | r0 :: _ =>
      let d0 := day_of (fst r0) in
      let d1 := day_of (fst (last (rows df) r0)) in
      mkDF (columns df)
        (map (fun d =>
                (day_start d,
                 group_mean (List.length (columns df))
                   (filter (fun r : row => (day_of (fst r) =? d)%Z)
                           (rows df))))
             (days d0 d1))
  end.

Definition fill_cell (prev cur : num) : num :=
  if isna cur then prev else cur.

Fixpoint fill_row (prev cur : list num) : list num :=
  match cur with
  | [] => []
  | c :: cur' => fill_cell (hd NaN prev) c :: fill_row (tl prev) cur'
  end.

Fixpoint ffill_from (prev : list num) (rs : list row) : list row :=
  match rs with
  | [] => []
  | r :: rs' =>
      let filled := fill_row prev (snd r) in
      (fst r, filled) :: ffill_from filled rs'
  end.

Definition fillna_ffill (df : DataFrame) : DataFrame :=
  mkDF (columns df) (ffill_from [] (rows df)).

Definition complete (r : row) : bool :=
  forallb (fun c => negb (isna c)) (snd r).

Definition dropna (df : DataFrame) : DataFrame :=
  mkDF (columns df) (filter complete (rows df)).

(** The rolling mean of a column: at each row, a value that the
    library computes from the column read up to that row. *)
Definition rolling_mean (window : nat) (s : list num) : list num :=
  map (fun i => rolling_value window (firstn (S i) s))
      (seq 0 (List.length s)).

(** The table of line 40. *)
Definition cleaned (df_fred df_yf : DataFrame) : DataFrame :=
  dropna (fillna_ffill (resample_D_mean (pd_concat df_fred df_yf))).

(** Lines 39-48. *)
Definition transform (df_fred df_yf : DataFrame) : outcome DataFrame :=
  let df := pd_concat df_fred df_yf in
  let df := dropna (fillna_ffill (resample_D_mean df)) in
  WALCL <~ getitem df "WALCL" ;
  WTREGEN <~ getitem df "WTREGEN" ;
  RRPONTSYD <~ getitem df "RRPONTSYD" ;
  df <~ setitem df "Net_Liquidity"
          (series_sub (series_sub (series_div WALCL (of_int 1000000))
                                  (series_div WTREGEN (of_int 1000)))
                      (series_div RRPONTSYD (of_int 1000))) ;
  SOFR <~ getitem df "SOFR" ;
  IORB <~ getitem df "IORB" ;
  df <~ setitem df "Rate_Spread" (series_sub SOFR IORB) ;
  Net_Liquidity <~ getitem df "Net_Liquidity" ;
  setitem df "Liq_MA20" (rolling_mean 20 Net_Liquidity).

Definition valid_panel (tickers : list string) (df : DataFrame) : bool :=
  same_labels (columns df) tickers
  && ascending (index df)
  && forallb (fun r : row =>
                (List.length (snd r) =? List.length (columns df))%nat)
             (rows df).

(** One cell per column in every row. *)
Definition wf (df : DataFrame) : Prop :=
  forall r, In r (rows df) ->
            List.length (snd r) = List.length (columns df).

(** The right-hand side of line 44 on three columns. *)
Definition net_liquidity (W G P : list num) : list num :=
  series_sub (series_sub (series_div W (of_int 1000000))
                         (series_div G (of_int 1000)))
             (series_div P (of_int 1000)).

End Pipeline.

Arguments mkDF {num} columns rows.
Arguments columns {num} d.
Arguments rows {num} d.
Arguments index {num} df.
Arguments getitem {num} NaN df name.
Arguments value_at {num} NaN df i name.
Arguments setitem {num} df name s.
Arguments series_div {num} div s k.
Arguments series_sub {num} sub s t.
Arguments pd_concat {num} NaN a b.
Arguments resample_D_mean {num} NaN day_mean df.
Arguments group_mean {num} NaN day_mean ncols group.
Arguments fill_row {num} NaN isna prev cur.
Arguments ffill_from {num} NaN isna prev rs.
Arguments fillna_ffill {num} NaN isna df.
Arguments dropna {num} isna df.
Arguments complete {num} isna r.
Arguments rolling_mean {num} rolling_value window s.
Arguments cleaned {num} NaN isna day_mean df_fred df_yf.
Arguments transform {num} NaN isna sub div of_int day_mean rolling_value
  df_fred df_yf.
Arguments valid_panel {num} tickers df.
Arguments wf {num} df.
Arguments net_liquidity {num} sub div of_int W G P.

End AnyArithmetic.

(** *** Binary64

    The cells of pandas: IEEE doubles, NaN for a missing value.  The two
    means are plain left-to-right sums over the values that are there;
    the statements made in any arithmetic do not depend on them. *)

Module Binary64.

Definition num : Set := PrimFloat.float.
Definition NaN : num := PrimFloat.nan.
Definition isna : num -> bool := PrimFloat.is_nan.
Definition sub : num -> num -> num := PrimFloat.sub.
Definition div : num -> num -> num := PrimFloat.div.
Definition of_int (z : Z) : num := PrimFloat.of_uint63 (Uint63.of_Z z).

(** The double nearest to the decimal [n / d], for integers of at most
    fifteen digits. *)
Definition decimal (n d : Z) : num := div (of_int n) (of_int d).

Definition plain_mean (xs : list num) : num :=
  match filter (fun x => negb (isna x)) xs with
  | [] => NaN
  | v :: vs =>
      div (fold_left PrimFloat.add vs v)
          (of_int (Z.of_nat (List.length (v :: vs))))
  end.

Definition day_mean : list num -> num := plain_mean.

Definition rolling_value (window : nat) (prefix : list num) : num :=
  let w := skipn (List.length prefix - window) prefix in
  if (List.length (filter (fun x => negb (isna x)) w) =? window)%nat
  then plain_mean w else NaN.

Definition DataFrame : Type := AnyArithmetic.DataFrame num.

Definition cleaned : DataFrame -> DataFrame -> DataFrame :=
  AnyArithmetic.cleaned NaN isna day_mean.

Definition transform : DataFrame -> DataFrame -> outcome DataFrame :=
  AnyArithmetic.transform NaN isna sub div of_int day_mean rolling_value.

Definition value_at : DataFrame -> nat -> string -> outcome num :=
  AnyArithmetic.value_at NaN.

(** Six days on which the Treasury account grows by one billion and the
    reverse repos shrink by one billion between the second and the third
    day: the sum of the two is the same on all six days. *)
Definition shift_fred : DataFrame :=
  AnyArithmetic.mkDF fred_tickers
    (map (fun i : nat =>
            let d := Z.of_nat i in
            let late := (2 <=? d)%Z in
            (day_start d,
             [of_int 7194000;
              of_int (if late then 701 else 700);
              of_int (if late then 399 else 400);
              decimal 533 100; decimal 540 100; of_int 1]))
         (seq 0 6)).

Definition shift_yf : DataFrame :=
  AnyArithmetic.mkDF ["^GSPC"; "^MOVE"; "^VIX"]%string
    (map (fun i : nat =>
            (day_start (Z.of_nat i), [of_int 5000; of_int 100; of_int 30]))
         (seq 0 6)).

End Binary64.

(** A table as a provider returns it, labels aside: rows in ascending
    order of time without repeated timestamps, one cell per column. *)
Definition table_like (df : DataFrame) : bool :=
  ascending (index df)
  && forallb (fun r : row =>
                (List.length (snd r) =? List.length (columns df))%nat)
             (rows df).

(** No label twice. *)
Fixpoint distinct (l : list string) : bool :=
  match l with
  | [] => true
  | x :: l' => negb (mem x l') && distinct l'
  end.

(** The FRED panel of the six days without the IORB series. *)
Definition six_days_fred_no_iorb : DataFrame :=
  mkDF ["WALCL"; "WTREGEN"; "RRPONTSYD"; "SOFR"; "T10Y2Y"]%string
    (map (fun r : row => (fst r, firstn 4 (snd r) ++ skipn 5 (snd r)))
         (rows six_days_fred)).

(** Six values, one of them missing. *)
Definition six_values : list cell :=
  [Some 1; NaN; Some 3; Some 4; Some 5; Some 6].

(* ================================================================== *)
(** ** Facts on the comparisons *)

Lemma Qlt_bool_iff (x y : Q) : Qlt_bool x y = true <-> x < y.
Proof.
  unfold Qlt_bool. rewrite negb_true_iff, <- not_true_iff_false, Qle_bool_iff.
  split; [apply Qnot_le_lt | apply Qlt_not_le].
Qed.

Lemma cell_ge_Some (q k : Q) : cell_ge (Some q) k = true <-> k <= q.
Proof. apply Qle_bool_iff. Qed.

Lemma cell_gt_Some (q k : Q) : cell_gt (Some q) k = true <-> k < q.
Proof. apply Qlt_bool_iff. Qed.

Lemma cell_ge_false (q k : Q) : cell_ge (Some q) k = false <-> q < k.
Proof.
  rewrite <- not_true_iff_false, cell_ge_Some.
  split; [apply Qnot_le_lt | apply Qlt_not_le].
Qed.

Lemma cell_gt_false (q k : Q) : cell_gt (Some q) k = false <-> q <= k.
Proof.
  rewrite <- not_true_iff_false, cell_gt_Some.
  split; [apply Qnot_lt_le | apply Qle_not_lt].
Qed.

Lemma Qlt_0_005 : 0 < 0.05.
Proof. reflexivity. Qed.

(* ================================================================== *)
(** ** The health tiers and the bar colors *)

Lemma status_msg_cases (x : cell) :
  status_msg x =
    if cell_ge x 0.05 then Critical
    else if cell_gt x 0 then Warning else Normal.
Proof.
  unfold status_msg, status.
  destruct (cell_ge x 0.05); [reflexivity|].
  destruct (cell_gt x 0); reflexivity.
Qed.

Lemma status_msg_interval (q : Q) (t : tier) :
  status_msg (Some q) = t <-> tier_interval t q.
Proof.
  rewrite status_msg_cases.
  destruct (cell_ge (Some q) 0.05) eqn:Hge.
  - apply cell_ge_Some in Hge.
    destruct t; simpl; split; intro H; try discriminate; try reflexivity;
      try exact Hge.
    + exfalso. apply (Qlt_not_le 0 0.05 Qlt_0_005).
      apply Qle_trans with q; assumption.
    + exfalso. destruct H as [_ H]. apply (Qlt_not_le _ _ H Hge).
  - apply cell_ge_false in Hge.
    destruct (cell_gt (Some q) 0) eqn:Hgt.
    + apply cell_gt_Some in Hgt.
      destruct t; simpl; split; intro H; try discriminate; try reflexivity.
      * exfalso. apply (Qlt_not_le _ _ Hgt H).
      * split; assumption.
      * exfalso. apply (Qlt_not_le _ _ Hge H).
    + apply cell_gt_false in Hgt.
      destruct t; simpl; split; intro H; try discriminate; try reflexivity.
      * exact Hgt.
      * exfalso. destruct H as [H _]. apply (Qlt_not_le _ _ H Hgt).
      * exfalso. apply (Qlt_not_le _ _ Hge H).
Qed.

Lemma colors_cons (x : cell) (s : list cell) :
  colors (x :: s) =
    (if cell_ge x 0.05 then red
     else if cell_gt x 0 then yellow else green) :: colors s.
Proof. reflexivity. Qed.

Lemma colors_status (s : list cell) :
  colors s = map (fun x => tier_color (status_msg x)) s.
Proof.
  induction s as [|x s IH]; [reflexivity|].
  rewrite colors_cons, IH. simpl. f_equal.
  rewrite status_msg_cases.
  destruct (cell_ge x 0.05); [reflexivity|].
  destruct (cell_gt x 0); reflexivity.
Qed.

Lemma tier_color_inj (t u : tier) : tier_color t = tier_color u -> t = u.
Proof. destruct t, u; simpl; intro H; try discriminate; reflexivity. Qed.

(** C2: the status of the last row's spread is a total function of the
    spread whose three tiers are exactly the intervals [0.05, oo)
    (critical), (0, 0.05) (warning) and (-oo, 0] (normal): a spread has
    tier [t] if and only if it lies in the interval of [t], so every
    spread lies in the interval of exactly one tier. *)
Theorem C2_status_partitions_the_line (q : Q) :
  (status_msg (Some q) = Critical <-> 0.05 <= q) /\
  (status_msg (Some q) = Warning <-> 0 < q /\ q < 0.05) /\
  (status_msg (Some q) = Normal <-> q <= 0) /\
  (exists t, tier_interval t q /\ forall u, tier_interval u q -> u = t).
Proof.
  split; [apply (status_msg_interval q Critical)|].
  split; [apply (status_msg_interval q Warning)|].
  split; [apply (status_msg_interval q Normal)|].
  exists (status_msg (Some q)). split.
  - apply status_msg_interval. reflexivity.
  - intros u Hu. apply status_msg_interval in Hu. symmetry. exact Hu.
Qed.

(** C10: the bar chart colors every observation by the tier the status
    rule gives its spread: red exactly for critical, yellow exactly for
    warning, green exactly for normal, also on a missing spread; on a
    number the three colors are the intervals [0.05, oo), (0, 0.05) and
    (-oo, 0]. *)
Theorem C10_colors_agree_with_status :
  (forall s : list cell, colors s = map (fun x => tier_color (status_msg x)) s)
  /\ (forall x : cell,
        (colors [x] = [red] <-> status_msg x = Critical) /\
        (colors [x] = [yellow] <-> status_msg x = Warning) /\
        (colors [x] = [green] <-> status_msg x = Normal))
  /\ (forall q : Q,
        (colors [Some q] = [red] <-> 0.05 <= q) /\
        (colors [Some q] = [yellow] <-> 0 < q /\ q < 0.05) /\
        (colors [Some q] = [green] <-> q <= 0)).
Proof.
  assert (Hone : forall (x : cell) (t : tier),
            colors [x] = [tier_color t] <-> status_msg x = t).
  { intros x t. rewrite colors_status. simpl. split; intro H.
    - injection H as H. apply tier_color_inj. exact H.
    - rewrite H. reflexivity. }
  split; [exact colors_status|]. split.
  - intro x. repeat split; try apply (Hone x Critical);
      try apply (Hone x Warning); try apply (Hone x Normal).
  - intro q.
    split; [rewrite (Hone (Some q) Critical);
            apply (status_msg_interval q Critical)|].
    split; [rewrite (Hone (Some q) Warning);
            apply (status_msg_interval q Warning)|].
    rewrite (Hone (Some q) Normal). apply (status_msg_interval q Normal).
Qed.

(* ================================================================== *)
(** ** The recommendation rule *)

Lemma recommendation_liquidate (s v d : cell) :
  cell_ge s 0.05 = true ->
  recommendation s v d =
    ([st_error (Conclusion Liquidate); st_error (Because FundingSqueeze)],
     Returned (Liquidate, FundingSqueeze)).
Proof. intro H. unfold recommendation. rewrite H. reflexivity. Qed.

Lemma recommendation_buy (s v d : cell) :
  cell_ge s 0.05 = false -> cell_ge v 25 = true -> cell_gt d 0 = true ->
  recommendation s v d =
    ([st_success (Conclusion BuyTheDip); st_info (Because SentimentOnly)],
     Returned (BuyTheDip, SentimentOnly)).
Proof.
  intros H1 H2 H3. unfold recommendation. rewrite H1, H2, H3. reflexivity.
Qed.

Lemma recommendation_hold (s v d : cell) :
  cell_ge s 0.05 = false -> cell_ge v 25 && cell_gt d 0 = false ->
  recommendation s v d =
    ([st_info (Conclusion Hold)], Returned (Hold, NothingSpecial)).
Proof. intros H1 H2. unfold recommendation. rewrite H1, H2. reflexivity. Qed.

Lemma recommendation_returns (s v d : cell) :
  exists log r, recommendation s v d = (log, Returned r).
Proof.
  unfold recommendation.
  destruct (cell_ge s 0.05); [eexists; eexists; reflexivity|].
  destruct (cell_ge v 25 && cell_gt d 0); eexists; eexists; reflexivity.
Qed.

(** C1: the recommendation is a function of the spread, the fear index
    and the liquidity delta alone, decided in this order: liquidate
    exactly when spread >= 0.05, whatever the other two are; otherwise
    buy the dip exactly when fear index >= 25 and delta > 0; otherwise
    hold. *)
Theorem C1_recommendation_priority (s v d : Q) :
  let r := recommendation (Some s) (Some v) (Some d) in
  (0.05 <= s <->
     r = ([st_error (Conclusion Liquidate);
           st_error (Because FundingSqueeze)],
          Returned (Liquidate, FundingSqueeze))) /\
  (s < 0.05 /\ 25 <= v /\ 0 < d <->
     r = ([st_success (Conclusion BuyTheDip);
           st_info (Because SentimentOnly)],
          Returned (BuyTheDip, SentimentOnly))) /\
  (s < 0.05 /\ ~ (25 <= v /\ 0 < d) <->
     r = ([st_info (Conclusion Hold)], Returned (Hold, NothingSpecial))).
Proof.
  cbv zeta.
  destruct (cell_ge (Some s) 0.05) eqn:Hs.
  - rewrite (recommendation_liquidate _ (Some v) (Some d) Hs).
    apply cell_ge_Some in Hs.
    split; [split; [reflexivity | intros _; exact Hs]|].
    split; (split; [intros [H _]; exfalso; apply (Qlt_not_le _ _ H Hs)
                   | discriminate]).
  - destruct (cell_ge (Some v) 25) eqn:Hv, (cell_gt (Some d) 0) eqn:Hd.
    1: rewrite (recommendation_buy _ _ _ Hs Hv Hd).
    2-4: rewrite (recommendation_hold (Some s) (Some v) (Some d) Hs)
           by (rewrite Hv, Hd; reflexivity).
    all: apply cell_ge_false in Hs.
    all: split;
      [split; [intro H; exfalso; apply (Qlt_not_le _ _ Hs H)
              | discriminate]|].
    + apply cell_ge_Some in Hv. apply cell_gt_Some in Hd.
      split; [split; [reflexivity | intros _; repeat split; assumption]|].
      split; [intros [_ H]; exfalso; apply H; split; assumption
             | discriminate].
    + apply cell_gt_false in Hd.
      split; [split; [intros (_ & _ & H); exfalso;
                      apply (Qlt_not_le _ _ H Hd) | discriminate]|].
      split; [reflexivity|]. intros _. split; [exact Hs|].
      intros [_ H]. apply (Qlt_not_le _ _ H Hd).
    + apply cell_ge_false in Hv.
      split; [split; [intros (_ & H & _); exfalso;
                      apply (Qlt_not_le _ _ Hv H) | discriminate]|].
      split; [reflexivity|]. intros _. split; [exact Hs|].
      intros [H _]. apply (Qlt_not_le _ _ Hv H).
    + apply cell_ge_false in Hv.
      split; [split; [intros (_ & H & _); exfalso;
                      apply (Qlt_not_le _ _ Hv H) | discriminate]|].
      split; [reflexivity|]. intros _. split; [exact Hs|].
      intros [H _]. apply (Qlt_not_le _ _ Hv H).
Qed.

(** The three scenarios of the specification, and the boundaries. *)
Example scenario_critical :
  status_msg (Some 0.06) = Critical /\
  snd (recommendation (Some 0.06) (Some 12) (Some (-3)))
  = Returned (Liquidate, FundingSqueeze).
Proof. split; reflexivity. Qed.

Example scenario_warning :
  status_msg (Some 0.02) = Warning /\
  snd (recommendation (Some 0.02) (Some 27) (Some 0.5))
  = Returned (BuyTheDip, SentimentOnly).
Proof. split; reflexivity. Qed.

Example scenario_normal :
  status_msg (Some (-0.01)) = Normal /\
  snd (recommendation (Some (-0.01)) (Some 15) (Some (-0.2)))
  = Returned (Hold, NothingSpecial).
Proof. split; reflexivity. Qed.

Example boundaries :
  status_msg (Some 0.05) = Critical /\ status_msg (Some 0) = Normal /\
  snd (recommendation (Some 0.04) (Some 25) (Some 0.1))
  = Returned (BuyTheDip, SentimentOnly) /\
  snd (recommendation (Some 0.04) (Some 25) (Some 0))
  = Returned (Hold, NothingSpecial).
Proof. repeat split; reflexivity. Qed.

(* ================================================================== *)
(** ** Failures of the two providers *)

(** C7: when the FRED call raises, whatever the exception,
    [get_market_data] catches it, shows the error message and returns
    [None]; the script then ends normally having drawn no chart and
    nothing of the three panels. *)
Theorem C7_fred_failure_is_caught (w : world) (e : exn) :
  get_data_fred w fred_tickers = Raised e ->
  get_market_data w = ([st_spinner; st_error FredFailed], Returned None) /\
  app w = ([st_set_page_config; st_title; st_markdown;
            st_spinner; st_error FredFailed], Returned tt) /\
  existsb is_chart (fst (app w)) = false.
Proof.
  intro H.
  assert (G : get_market_data w
              = ([st_spinner; st_error FredFailed], Returned None)).
  { unfold get_market_data. rewrite H. reflexivity. }
  assert (A : app w = ([st_set_page_config; st_title; st_markdown;
                        st_spinner; st_error FredFailed], Returned tt)).
  { unfold app. rewrite G. reflexivity. }
  split; [exact G|]. split; [exact A|]. rewrite A. reflexivity.
Qed.

Lemma C7_fred_failure_witness :
  app world_fred_down
  = ([st_set_page_config; st_title; st_markdown;
      st_spinner; st_error FredFailed], Returned tt).
Proof.
  exact (proj1 (proj2 (C7_fred_failure_is_caught world_fred_down
                         (ProviderError 503) eq_refl))).
Defined.

(** C8: when the FRED call returns and the Yahoo call raises, nothing
    catches the exception: it leaves [get_market_data] and ends the
    script; the page holds what was shown before the call and neither
    an error message of the dashboard nor a chart. *)
Theorem C8_yahoo_failure_propagates (w : world) (df_fred : DataFrame)
    (e : exn) :
  get_data_fred w fred_tickers = Returned df_fred ->
  yf_download w yf_tickers = Raised e ->
  get_market_data w = ([st_spinner], Raised e) /\
  app w = ([st_set_page_config; st_title; st_markdown; st_spinner],
           Raised e) /\
  existsb is_error (fst (app w)) = false /\
  existsb is_chart (fst (app w)) = false.
Proof.
  intros Hf Hy.
  assert (G : get_market_data w = ([st_spinner], Raised e)).
  { unfold get_market_data. rewrite Hf, Hy. reflexivity. }
  assert (A : app w = ([st_set_page_config; st_title; st_markdown;
                        st_spinner], Raised e)).
  { unfold app. rewrite G. reflexivity. }
  split; [exact G|]. split; [exact A|]. rewrite A. split; reflexivity.
Qed.

Lemma C8_yahoo_failure_witness :
  app world_yahoo_down
  = ([st_set_page_config; st_title; st_markdown; st_spinner],
     Raised (ProviderError 429)).
Proof.
  exact (proj1 (proj2 (C8_yahoo_failure_propagates world_yahoo_down
                         (mkDF fred_tickers []) (ProviderError 429)
                         eq_refl eq_refl))).
Defined.

(* ================================================================== *)
(** ** Lists *)

Section Lists.
Context {A B C : Type}.

Lemma map2_length (f : A -> B -> C) (l : list A) (m : list B) :
  List.length l = List.length m ->
  List.length (map2 f l m) = List.length l.
Proof.
  revert m. induction l as [|a l IH]; intros [|b m] H; simpl in *;
    try discriminate; [reflexivity|].
  f_equal. apply IH. lia.
Qed.

Lemma map2_ext_in (f g : A -> B -> C) (l : list A) (m : list B) :
  (forall a b, In a l -> f a b = g a b) -> map2 f l m = map2 g l m.
Proof.
  revert m. induction l as [|a l IH]; intros [|b m] H; simpl;
    try reflexivity.
  rewrite (H a b) by (left; reflexivity).
  f_equal. apply IH. intros a' b' Hin. apply H. right. exact Hin.
Qed.

Lemma map2_left (h : A -> C) (l : list A) (m : list B) :
  List.length l = List.length m -> map2 (fun a _ => h a) l m = map h l.
Proof.
  revert m. induction l as [|a l IH]; intros [|b m] H; simpl in *;
    try discriminate; [reflexivity|].
  f_equal. apply IH. lia.
Qed.

Lemma map2_right (h : B -> C) (l : list A) (m : list B) :
  List.length l = List.length m -> map2 (fun _ b => h b) l m = map h m.
Proof.
  revert m. induction l as [|a l IH]; intros [|b m] H; simpl in *;
    try discriminate; [reflexivity|].
  f_equal. apply IH. lia.
Qed.

Lemma map_map2 {D} (k : C -> D) (f : A -> B -> C) (l : list A)
    (m : list B) :
  map k (map2 f l m) = map2 (fun a b => k (f a b)) l m.
Proof.
  revert m. induction l as [|a l IH]; intros [|b m]; simpl;
    try reflexivity.
  f_equal. apply IH.
Qed.

Lemma nth_map2 (f : A -> B -> C) (l : list A) (m : list B) (i : nat)
    (da : A) (db : B) (dc : C) :
  (i < List.length l)%nat -> List.length l = List.length m ->
  nth i (map2 f l m) dc = f (nth i l da) (nth i m db).
Proof.
  revert m i. induction l as [|a l IH]; intros [|b m] i Hi H;
    simpl in *; try discriminate; try lia.
  destruct i as [|i]; [reflexivity|]. apply IH; lia.
Qed.

Lemma In_map2 (f : A -> B -> C) (l : list A) (m : list B) (c : C) :
  In c (map2 f l m) -> exists a b, In a l /\ In b m /\ c = f a b.
Proof.
  revert m. induction l as [|a l IH]; intros [|b m] H; simpl in *;
    try contradiction.
  destruct H as [H|H].
  - exists a, b. auto.
  - destruct (IH m H) as (a' & b' & Ha & Hb & E). exists a', b'. auto.
Qed.

Lemma replace_nth_length (p : nat) (x : A) (l : list A) :
  List.length (replace_nth p x l) = List.length l.
Proof.
  revert p. induction l as [|y l IH]; intros [|p]; simpl; try reflexivity.
  f_equal. apply IH.
Qed.

Lemma nth_replace_nth_same (p : nat) (x d : A) (l : list A) :
  (p < List.length l)%nat -> nth p (replace_nth p x l) d = x.
Proof.
  revert p. induction l as [|y l IH]; intros [|p] H; simpl in *;
    try lia; [reflexivity|].
  apply IH. lia.
Qed.

Lemma nth_replace_nth_other (p p' : nat) (x d : A) (l : list A) :
  p <> p' -> nth p' (replace_nth p x l) d = nth p' l d.
Proof.
  revert p p'. induction l as [|y l IH]; intros [|p] [|p'] H; simpl;
    try reflexivity; try congruence.
  apply IH. congruence.
Qed.
End Lists.

(* ================================================================== *)
(** ** Column labels *)

Lemma get_loc_lt (name : string) (cols : list string) (p : nat) :
  get_loc name cols = Some p -> (p < List.length cols)%nat.
Proof.
  revert p. induction cols as [|c cols IH]; intros p H; simpl in *;
    [discriminate|].
  destruct (String.eqb c name).
  - injection H as <-. lia.
  - destruct (get_loc name cols) as [p'|]; simpl in H; [|discriminate].
    injection H as <-. specialize (IH p' eq_refl). lia.
Qed.

Lemma get_loc_nth (name : string) (cols : list string) (p : nat) :
  get_loc name cols = Some p -> nth p cols EmptyString = name.
Proof.
  revert p. induction cols as [|c cols IH]; intros p H; simpl in *;
    [discriminate|].
  destruct (String.eqb c name) eqn:E.
  - injection H as <-. apply String.eqb_eq. exact E.
  - destruct (get_loc name cols) as [p'|]; simpl in H; [|discriminate].
    injection H as <-. apply IH. reflexivity.
Qed.

Lemma get_loc_In (name : string) (cols : list string) :
  In name cols -> exists p, get_loc name cols = Some p.
Proof.
  induction cols as [|c cols IH]; intro H; simpl in *; [contradiction|].
  destruct (String.eqb c name) eqn:E; [exists 0%nat; reflexivity|].
  destruct H as [H|H].
  - subst c. rewrite String.eqb_refl in E. discriminate.
  - destruct (IH H) as [p Hp]. exists (S p). rewrite Hp. reflexivity.
Qed.

Lemma get_loc_Some_In (name : string) (cols : list string) (p : nat) :
  get_loc name cols = Some p -> In name cols.
Proof.
  intro H. rewrite <- (get_loc_nth _ _ _ H). apply nth_In.
  apply (get_loc_lt _ _ _ H).
Qed.

Lemma get_loc_app_l (name : string) (cols l : list string) (p : nat) :
  get_loc name cols = Some p -> get_loc name (cols ++ l) = Some p.
Proof.
  revert p. induction cols as [|c cols IH]; intros p H; simpl in *;
    [discriminate|].
  destruct (String.eqb c name); [exact H|].
  destruct (get_loc name cols) as [p'|]; simpl in H; [|discriminate].
  rewrite (IH p' eq_refl). exact H.
Qed.

Lemma get_loc_app_new (name name' : string) (cols : list string) :
  get_loc name' cols = None ->
  get_loc name' (cols ++ [name]) =
    if String.eqb name name' then Some (List.length cols) else None.
Proof.
  induction cols as [|c cols IH]; intro H; simpl in *.
  - destruct (String.eqb name name'); reflexivity.
  - destruct (String.eqb c name'); [discriminate|].
    destruct (get_loc name' cols) as [p'|]; simpl in H; [discriminate|].
    rewrite (IH eq_refl). destruct (String.eqb name name'); reflexivity.
Qed.

Lemma get_loc_inj (n1 n2 : string) (cols : list string) (p : nat) :
  get_loc n1 cols = Some p -> get_loc n2 cols = Some p -> n1 = n2.
Proof.
  intros H1 H2. rewrite <- (get_loc_nth _ _ _ H1). apply get_loc_nth.
  exact H2.
Qed.

Lemma same_labels_In (cols tickers : list string) (t : string) :
  same_labels cols tickers = true -> In t tickers -> In t cols.
Proof.
  unfold same_labels. rewrite !andb_true_iff. intros [[_ H] _] Ht.
  rewrite forallb_forall in H. specialize (H t Ht).
  unfold mem in H. apply existsb_exists in H. destruct H as (c & Hc & E).
  apply String.eqb_eq in E. subst c. exact Hc.
Qed.

(* ================================================================== *)
(** ** Reading and writing columns *)

Lemma getitem_In (df : DataFrame) (name : string) :
  In name (columns df) -> exists col, getitem df name = Returned col.
Proof.
  intro H. destruct (get_loc_In _ _ H) as [p Hp].
  unfold getitem. rewrite Hp. eexists. reflexivity.
Qed.

Lemma getitem_length (df : DataFrame) (name : string) (col : list cell) :
  getitem df name = Returned col ->
  List.length col = List.length (rows df).
Proof.
  unfold getitem. destruct (get_loc name (columns df)); [|discriminate].
  intro H. injection H as <-. apply length_map.
Qed.

Lemma getitem_columns (df : DataFrame) (name : string) (col : list cell) :
  getitem df name = Returned col -> In name (columns df).
Proof.
  unfold getitem. destruct (get_loc name (columns df)) eqn:E;
    [|discriminate].
  intros _. apply (get_loc_Some_In _ _ _ E).
Qed.

(** A cell of a row is the value of its column at the row's position. *)
Lemma row_get_getitem (df : DataFrame) (name : string) (col : list cell)
    (i : nat) (d : row) :
  getitem df name = Returned col -> (i < List.length (rows df))%nat ->
  row_get df (nth i (rows df) d) name = Returned (nth i col NaN).
Proof.
  unfold getitem, row_get, series_get. simpl.
  destruct (get_loc name (columns df)) as [p|]; [|discriminate].
  intros H Hi. injection H as <-. f_equal.
  rewrite (nth_indep (map (fun r : row => nth p (snd r) NaN) (rows df))
             NaN (nth p (snd d) NaN)) by (rewrite length_map; lia).
  rewrite (map_nth (fun r : row => nth p (snd r) NaN)). reflexivity.
Qed.

Section Setitem.
Variables (df : DataFrame) (name : string) (s : list cell).
Hypothesis Hwf : wf df.
Hypothesis Hlen : List.length s = List.length (rows df).

Lemma setitem_returns : exists df', setitem df name s = Returned df'.
Proof.
  unfold setitem. rewrite Hlen, Nat.eqb_refl. simpl.
  destruct (get_loc name (columns df)); eexists; reflexivity.
Qed.

Variable df' : DataFrame.
Hypothesis Hset : setitem df name s = Returned df'.

Lemma setitem_cases :
  (exists p, get_loc name (columns df) = Some p /\
     df' = mkDF (columns df)
             (map2 (fun (r : row) c => (fst r, replace_nth p c (snd r)))
                   (rows df) s)) \/
  (get_loc name (columns df) = None /\
     df' = mkDF (columns df ++ [name])
             (map2 (fun (r : row) c => (fst r, snd r ++ [c])) (rows df) s)).
Proof.
  revert Hset. unfold setitem. rewrite Hlen, Nat.eqb_refl. simpl.
  destruct (get_loc name (columns df)) as [p|]; intro H;
    injection H as <-; [left; exists p|right]; auto.
Qed.

Lemma setitem_rows_length :
  List.length (rows df') = List.length (rows df).
Proof.
  destruct setitem_cases as [(p & _ & ->)|(_ & ->)]; simpl;
    apply map2_length; symmetry; exact Hlen.
Qed.

Lemma setitem_index : index df' = index df.
Proof.
  unfold index.
  destruct setitem_cases as [(p & _ & ->)|(_ & ->)]; simpl;
    rewrite map_map2; simpl; apply (map2_left fst); symmetry; exact Hlen.
Qed.

Lemma setitem_wf : wf df'.
Proof.
  intros r Hr.
  destruct setitem_cases as [(p & _ & ->)|(_ & ->)]; simpl in *;
    apply In_map2 in Hr; destruct Hr as (r0 & c & Hr0 & _ & ->); simpl.
  - rewrite replace_nth_length. apply Hwf. exact Hr0.
  - rewrite !length_app. simpl. rewrite (Hwf r0 Hr0). reflexivity.
Qed.

Lemma setitem_columns (c : string) :
  In c (columns df') <-> In c (columns df) \/ c = name.
Proof.
  destruct setitem_cases as [(p & Hp & ->)|(_ & ->)]; simpl.
  - split; [auto|]. intros [H| ->]; [exact H|].
    apply (get_loc_Some_In _ _ _ Hp).
  - rewrite in_app_iff. simpl. intuition.
Qed.

Lemma getitem_setitem_same : getitem df' name = Returned s.
Proof.
  unfold getitem.
  destruct setitem_cases as [(p & Hp & ->)|(Hn & ->)]; simpl.
  - rewrite Hp. f_equal. rewrite map_map2. simpl.
    rewrite (map2_ext_in _ (fun _ c => c)).
    + rewrite (map2_right (fun c => c)) by (symmetry; exact Hlen).
      apply map_id.
    + intros r c Hr. apply nth_replace_nth_same.
      rewrite (Hwf r Hr). apply (get_loc_lt _ _ _ Hp).
  - rewrite (get_loc_app_new _ _ _ Hn), String.eqb_refl. f_equal.
    rewrite map_map2. simpl.
    rewrite (map2_ext_in _ (fun _ c => c)).
    + rewrite (map2_right (fun c => c)) by (symmetry; exact Hlen).
      apply map_id.
    + intros r c Hr. rewrite <- (Hwf r Hr). apply nth_middle.
Qed.

Lemma getitem_setitem_other (name' : string) :
  name' <> name -> getitem df' name' = getitem df name'.
Proof.
  intro Hne. unfold getitem.
  destruct setitem_cases as [(p & Hp & ->)|(Hn & ->)]; simpl.
  - destruct (get_loc name' (columns df)) as [p'|] eqn:Hp';
      [|reflexivity].
    f_equal. rewrite map_map2. simpl.
    rewrite (map2_ext_in _ (fun (r : row) (_ : cell) => nth p' (snd r) NaN)).
    + apply (map2_left (fun r : row => nth p' (snd r) NaN)).
      symmetry; exact Hlen.
    + intros r c _. apply nth_replace_nth_other.
      intros ->. apply Hne. apply (get_loc_inj _ _ _ _ Hp' Hp).
  - destruct (get_loc name' (columns df)) as [p'|] eqn:Hp'.
    + rewrite (get_loc_app_l _ _ _ _ Hp'). f_equal.
      rewrite map_map2. simpl.
      rewrite (map2_ext_in _
                 (fun (r : row) (_ : cell) => nth p' (snd r) NaN)).
      * apply (map2_left (fun r : row => nth p' (snd r) NaN)).
        symmetry; exact Hlen.
      * intros r c Hr. apply app_nth1. rewrite (Hwf r Hr).
        apply (get_loc_lt _ _ _ Hp').
    + rewrite (get_loc_app_new _ _ _ Hp').
      destruct (String.eqb name name') eqn:E; [|reflexivity].
      apply String.eqb_eq in E. congruence.
Qed.
End Setitem.

(* ================================================================== *)
(** ** The cleaned table (line 40) *)

Lemma resample_columns (df : DataFrame) :
  columns (resample_D_mean df) = columns df.
Proof. unfold resample_D_mean. destruct (rows df); reflexivity. Qed.

Lemma resample_wf (df : DataFrame) : wf (resample_D_mean df).
Proof.
  intros r Hr. rewrite resample_columns.
  unfold resample_D_mean in Hr. destruct (rows df) as [|r0 rs] eqn:E.
  - rewrite E in Hr. contradiction.
  - simpl in Hr. apply in_map_iff in Hr. destruct Hr as (d & <- & _).
    simpl. unfold group_mean. rewrite length_map, length_seq. reflexivity.
Qed.

Lemma fill_row_length (prev cur : list cell) :
  List.length (fill_row prev cur) = List.length cur.
Proof.
  revert prev. induction cur as [|c cur IH]; intro prev; simpl;
    [reflexivity|].
  f_equal. apply IH.
Qed.

Lemma ffill_from_In (prev : list cell) (rs : list row) (r : row) :
  In r (ffill_from prev rs) ->
  exists r0, In r0 rs /\ List.length (snd r) = List.length (snd r0).
Proof.
  revert prev. induction rs as [|r1 rs IH]; intros prev H; simpl in *;
    [contradiction|].
  destruct H as [<-|H].
  - exists r1. split; [left; reflexivity|]. simpl. apply fill_row_length.
  - destruct (IH _ H) as (r0 & H0 & E). exists r0. auto.
Qed.

Lemma fillna_ffill_wf (df : DataFrame) : wf df -> wf (fillna_ffill df).
Proof.
  intros H r Hr. simpl in *. apply ffill_from_In in Hr.
  destruct Hr as (r0 & H0 & ->). apply H. exact H0.
Qed.

Lemma dropna_wf (df : DataFrame) : wf df -> wf (dropna df).
Proof.
  intros H r Hr. simpl in *. apply filter_In in Hr. apply H. apply Hr.
Qed.

Lemma dropna_complete (df : DataFrame) (r : row) :
  In r (rows (dropna df)) -> forallb notna (snd r) = true.
Proof. simpl. intro H. apply filter_In in H. apply H. Qed.

Lemma cleaned_columns (a b : DataFrame) :
  columns (cleaned a b) = columns a ++ columns b.
Proof. unfold cleaned. simpl. apply resample_columns. Qed.

Lemma cleaned_wf (a b : DataFrame) : wf (cleaned a b).
Proof. apply dropna_wf, fillna_ffill_wf, resample_wf. Qed.

Lemma notna_nth (l : list cell) (p : nat) :
  forallb notna l = true -> (p < List.length l)%nat ->
  notna (nth p l NaN) = true.
Proof.
  intros H Hp. rewrite forallb_forall in H. apply H. apply nth_In. exact Hp.
Qed.

Lemma all_present_nth (l : list cell) (i : nat) :
  all_present l -> (i < List.length l)%nat -> exists q, nth i l NaN = Some q.
Proof.
  intros H Hi. pose proof (notna_nth l i H Hi) as N.
  destruct (nth i l NaN) as [q|]; [exists q; reflexivity | discriminate].
Qed.

(** Every column of the cleaned table can be read and has no missing
    value. *)
Lemma cleaned_getitem (a b : DataFrame) (name : string) :
  In name (columns a ++ columns b) ->
  exists col, getitem (cleaned a b) name = Returned col /\ all_present col.
Proof.
  intro H. rewrite <- cleaned_columns in H.
  destruct (get_loc_In _ _ H) as [p Hp].
  unfold getitem. rewrite Hp. eexists. split; [reflexivity|].
  unfold all_present. apply forallb_forall. intros c Hc.
  apply in_map_iff in Hc. destruct Hc as (r & <- & Hr).
  apply notna_nth.
  - apply (dropna_complete _ r Hr).
  - rewrite (cleaned_wf a b r Hr). apply (get_loc_lt _ _ _ Hp).
Qed.

(** After the forward fill a complete row is followed by complete rows
    only, so [dropna] removes leading rows and nothing else. *)
Lemma fill_row_complete (prev cur : list cell) :
  forallb notna prev = true ->
  (List.length cur <= List.length prev)%nat ->
  forallb notna (fill_row prev cur) = true.
Proof.
  revert prev. induction cur as [|c cur IH]; intros [|p prev] H L;
    simpl in *; try reflexivity; try lia.
  apply andb_true_iff in H. destruct H as [Hp H].
  rewrite (IH prev H) by lia.
  destruct c; simpl; [reflexivity | rewrite Hp; reflexivity].
Qed.

Lemma ffill_from_complete (w : nat) (prev : list cell) (rs : list row) :
  forallb notna prev = true -> List.length prev = w ->
  (forall r, In r rs -> List.length (snd r) = w) ->
  forall r, In r (ffill_from prev rs) -> complete r = true.
Proof.
  revert prev. induction rs as [|r1 rs IH]; intros prev Hp Lp Hw r Hr;
    simpl in Hr; [contradiction|].
  assert (L1 : List.length (snd r1) = w) by (apply Hw; left; reflexivity).
  assert (C1 : forallb notna (fill_row prev (snd r1)) = true)
    by (apply fill_row_complete; [exact Hp | lia]).
  destruct Hr as [<-|Hr]; [exact C1|].
  apply (IH (fill_row prev (snd r1))); try assumption.
  - rewrite fill_row_length. exact L1.
  - intros r' Hr'. apply Hw. right. exact Hr'.
Qed.

Lemma filter_all {A} (f : A -> bool) (l : list A) :
  (forall x, In x l -> f x = true) -> filter f l = l.
Proof.
  induction l as [|x l IH]; intro H; simpl; [reflexivity|].
  rewrite (H x) by (left; reflexivity). f_equal. apply IH.
  intros y Hy. apply H. right. exact Hy.
Qed.

Lemma ffill_from_leading (w : nat) (prev : list cell) (rs : list row) :
  (forall r, In r rs -> List.length (snd r) = w) ->
  exists k, filter complete (ffill_from prev rs)
            = skipn k (ffill_from prev rs).
Proof.
  revert prev. induction rs as [|r1 rs IH]; intros prev Hw.
  - exists 0%nat. reflexivity.
  - simpl.
    destruct (complete (fst r1, fill_row prev (snd r1))) eqn:C.
    + exists 0%nat. simpl. f_equal. apply filter_all.
      apply (ffill_from_complete w (fill_row prev (snd r1))).
      * exact C.
      * rewrite fill_row_length. apply Hw. left. reflexivity.
      * intros r Hr. apply Hw. right. exact Hr.
    + destruct (IH (fill_row prev (snd r1))) as [k Hk].
      * intros r Hr. apply Hw. right. exact Hr.
      * exists (S k). exact Hk.
Qed.

Lemma cleaned_drops_leading_rows (a b : DataFrame) :
  exists k,
    rows (cleaned a b)
    = skipn k (rows (fillna_ffill (resample_D_mean (pd_concat a b)))).
Proof.
  unfold cleaned. simpl.
  apply (ffill_from_leading
           (List.length (columns (resample_D_mean (pd_concat a b))))).
  apply resample_wf.
Qed.

(* ================================================================== *)
(** ** The derived columns (lines 44-48) *)

Lemma series_div_length (s : list cell) (k : Q) :
  List.length (series_div s k) = List.length s.
Proof. apply length_map. Qed.

Lemma series_sub_length (s t : list cell) :
  List.length s = List.length t ->
  List.length (series_sub s t) = List.length s.
Proof. apply map2_length. Qed.

Lemma net_liquidity_length (W G P : list cell) (n : nat) :
  List.length W = n -> List.length G = n -> List.length P = n ->
  List.length (net_liquidity W G P) = n.
Proof.
  intros HW HG HP. unfold net_liquidity.
  rewrite series_sub_length; rewrite series_sub_length;
    rewrite ?series_div_length; congruence.
Qed.

Lemma rolling_mean_length (window : nat) (s : list cell) :
  List.length (rolling_mean window s) = List.length s.
Proof. unfold rolling_mean. rewrite length_map, length_seq. reflexivity. Qed.

(** [transform] returns whenever the five columns it reads are there. *)
Lemma transform_spec (a b : DataFrame) :
  (forall t, In t ["WALCL"; "WTREGEN"; "RRPONTSYD"; "SOFR"; "IORB"]%string ->
             In t (columns a ++ columns b)) ->
  exists df W G P S I,
    transform a b = Returned df /\ transformed a b df W G P S I /\
    all_present W /\ all_present G /\ all_present P /\
    all_present S /\ all_present I.
Proof.
  intro Hin.
  destruct (cleaned_getitem a b "WALCL") as (W & HW & PW);
    [apply Hin; simpl; tauto|].
  destruct (cleaned_getitem a b "WTREGEN") as (G & HG & PG);
    [apply Hin; simpl; tauto|].
  destruct (cleaned_getitem a b "RRPONTSYD") as (P & HP & PP);
    [apply Hin; simpl; tauto|].
  destruct (cleaned_getitem a b "SOFR") as (S & HS & PS);
    [apply Hin; simpl; tauto|].
  destruct (cleaned_getitem a b "IORB") as (I & HI & PI);
    [apply Hin; simpl; tauto|].
  pose proof (cleaned_wf a b) as Hwf0.
  set (df0 := cleaned a b) in *.
  pose proof (getitem_length _ _ _ HW) as LW.
  pose proof (getitem_length _ _ _ HG) as LG.
  pose proof (getitem_length _ _ _ HP) as LP.
  pose proof (getitem_length _ _ _ HS) as LS.
  pose proof (getitem_length _ _ _ HI) as LI.
  (* Net_Liquidity *)
  pose proof (net_liquidity_length W G P _ LW LG LP) as L1.
  destruct (setitem_returns df0 "Net_Liquidity" _ L1) as [df1 H1].
  pose proof (setitem_wf _ _ _ Hwf0 L1 _ H1) as Hwf1.
  pose proof (setitem_rows_length _ _ _ L1 _ H1) as R1.
  (* Rate_Spread *)
  assert (L2 : List.length (series_sub S I) = List.length (rows df1)).
  { rewrite series_sub_length; congruence. }
  destruct (setitem_returns df1 "Rate_Spread" _ L2) as [df2 H2].
  pose proof (setitem_wf _ _ _ Hwf1 L2 _ H2) as Hwf2.
  pose proof (setitem_rows_length _ _ _ L2 _ H2) as R2.
  (* Liq_MA20 *)
  assert (L3 : List.length (rolling_mean 20 (net_liquidity W G P))
               = List.length (rows df2)).
  { rewrite rolling_mean_length. congruence. }
  destruct (setitem_returns df2 "Liq_MA20" _ L3) as [df3 H3].
  pose proof (setitem_wf _ _ _ Hwf2 L3 _ H3) as Hwf3.
  pose proof (setitem_rows_length _ _ _ L3 _ H3) as R3.
  assert (N2 : getitem df2 "Net_Liquidity"
               = Returned (net_liquidity W G P)).
  { rewrite (getitem_setitem_other _ _ _ Hwf1 L2 _ H2) by discriminate.
    apply (getitem_setitem_same _ _ _ Hwf0 L1 _ H1). }
  exists df3, W, G, P, S, I.
  split; [|split; [constructor|repeat split]]; try assumption.
  - unfold transform. fold (cleaned a b). fold df0.
    rewrite HW, HG, HP. cbn [and_then].
    fold (net_liquidity W G P). rewrite H1. cbn [and_then].
    rewrite !(getitem_setitem_other _ _ _ Hwf0 L1 _ H1) by discriminate.
    rewrite HS, HI. cbn [and_then].
    rewrite H2. cbn [and_then]. rewrite N2. exact H3.
  - rewrite (setitem_index _ _ _ L3 _ H3), (setitem_index _ _ _ L2 _ H2).
    apply (setitem_index _ _ _ L1 _ H1).
  - rewrite R3, R2. exact R1.
  - intro c.
    rewrite (setitem_columns _ _ _ L3 _ H3), (setitem_columns _ _ _ L2 _ H2),
      (setitem_columns _ _ _ L1 _ H1).
    unfold df0. rewrite cleaned_columns. tauto.
  - rewrite (getitem_setitem_other _ _ _ Hwf2 L3 _ H3) by discriminate.
    exact N2.
  - rewrite (getitem_setitem_other _ _ _ Hwf2 L3 _ H3) by discriminate.
    apply (getitem_setitem_same _ _ _ Hwf1 L2 _ H2).
  - apply (getitem_setitem_same _ _ _ Hwf2 L3 _ H3).
  - intros name n1 n2 n3.
    rewrite (getitem_setitem_other _ _ _ Hwf2 L3 _ H3) by exact n3.
    rewrite (getitem_setitem_other _ _ _ Hwf1 L2 _ H2) by exact n2.
    apply (getitem_setitem_other _ _ _ Hwf0 L1 _ H1). exact n1.
Qed.

Lemma series_div_nth (s : list cell) (k : Q) (i : nat) :
  nth i (series_div s k) NaN = cell_div (nth i s NaN) k.
Proof. exact (map_nth (fun x => cell_div x k) s NaN i). Qed.

Lemma series_sub_nth (s t : list cell) (i : nat) :
  (i < List.length s)%nat -> List.length s = List.length t ->
  nth i (series_sub s t) NaN = cell_sub (nth i s NaN) (nth i t NaN).
Proof. apply nth_map2. Qed.

Lemma net_liquidity_nth (W G P : list cell) (i : nat) (w g p : Q) :
  (i < List.length W)%nat ->
  List.length W = List.length G -> List.length W = List.length P ->
  nth i W NaN = Some w -> nth i G NaN = Some g -> nth i P NaN = Some p ->
  nth i (net_liquidity W G P) NaN
  = Some (w / 1000000 - g / 1000 - p / 1000).
Proof.
  intros Hi LG LP Hw Hg Hp. unfold net_liquidity.
  rewrite series_sub_nth.
  - rewrite series_sub_nth by (rewrite ?series_div_length; assumption).
    rewrite !series_div_nth, Hw, Hg, Hp. reflexivity.
  - rewrite series_sub_length; rewrite ?series_div_length; assumption.
  - rewrite series_sub_length; rewrite ?series_div_length; assumption.
Qed.

Lemma all_present_series_div (s : list cell) (k : Q) :
  all_present s -> all_present (series_div s k).
Proof.
  unfold all_present, series_div. rewrite !forallb_forall.
  intros H c Hc. apply in_map_iff in Hc. destruct Hc as (x & <- & Hx).
  specialize (H x Hx). destruct x; [reflexivity | discriminate].
Qed.

Lemma all_present_series_sub (s t : list cell) :
  all_present s -> all_present t -> all_present (series_sub s t).
Proof.
  unfold all_present, series_sub. rewrite !forallb_forall.
  intros Hs Ht c Hc. apply In_map2 in Hc.
  destruct Hc as (x & y & Hx & Hy & ->).
  specialize (Hs x Hx). specialize (Ht y Hy).
  destruct x, y; try discriminate. reflexivity.
Qed.

Lemma all_present_net_liquidity (W G P : list cell) :
  all_present W -> all_present G -> all_present P ->
  all_present (net_liquidity W G P).
Proof.
  intros. unfold net_liquidity.
  repeat apply all_present_series_sub; apply all_present_series_div;
    assumption.
Qed.

(** The labels that valid panels bring. *)
Lemma valid_panel_labels (tickers : list string) (df : DataFrame)
    (t : string) :
  valid_panel tickers df = true -> In t tickers -> In t (columns df).
Proof.
  unfold valid_panel. rewrite !andb_true_iff. intros [[H _] _].
  apply same_labels_In. exact H.
Qed.

Lemma valid_panels_labels (a b : DataFrame) (t : string) :
  valid_panel fred_tickers a = true -> valid_panel yf_tickers b = true ->
  In t (fred_tickers ++ yf_tickers) -> In t (columns a ++ columns b).
Proof.
  intros Ha Hb. rewrite !in_app_iff. intros [H|H].
  - left. apply (valid_panel_labels _ _ _ Ha H).
  - right. apply (valid_panel_labels _ _ _ Hb H).
Qed.

Lemma transform_valid (a b : DataFrame) :
  valid_panel fred_tickers a = true -> valid_panel yf_tickers b = true ->
  exists df W G P S I,
    transform a b = Returned df /\ transformed a b df W G P S I /\
    all_present W /\ all_present G /\ all_present P /\
    all_present S /\ all_present I.
Proof.
  intros Ha Hb. apply transform_spec. intros t Ht.
  apply (valid_panels_labels a b t Ha Hb). simpl in *. tauto.
Qed.


(* ================================================================== *)
(** ** The rolling mean (line 48) *)

Lemma present_all (w : list cell) :
  all_present w -> map Some (present w) = w.
Proof.
  unfold all_present. induction w as [|[q|] w IH]; simpl; intro H;
    [reflexivity | | discriminate].
  f_equal. apply IH. exact H.
Qed.

Lemma present_length (w : list cell) :
  all_present w -> List.length (present w) = List.length w.
Proof.
  intro H. rewrite <- (present_all w H) at 2. rewrite length_map.
  reflexivity.
Qed.

Lemma present_length_le (w : list cell) :
  (List.length (present w) <= List.length w)%nat.
Proof. induction w as [|[q|] w IH]; simpl; lia. Qed.

Lemma all_present_firstn (n : nat) (s : list cell) :
  all_present s -> all_present (firstn n s).
Proof.
  unfold all_present. revert s. induction n as [|n IH]; intros [|c s] H;
    simpl in *; try reflexivity.
  apply andb_true_iff in H. destruct H as [Hc H]. rewrite Hc. simpl.
  apply IH. exact H.
Qed.

Lemma all_present_skipn (n : nat) (s : list cell) :
  all_present s -> all_present (skipn n s).
Proof.
  unfold all_present. revert s. induction n as [|n IH]; intros [|c s] H;
    simpl in *; try reflexivity; try exact H.
  apply andb_true_iff in H. apply IH. apply H.
Qed.

Lemma trailing_length (window i : nat) (s : list cell) :
  (i < List.length s)%nat ->
  List.length (trailing window i s) = Nat.min (S i) window.
Proof.
  intro H. unfold trailing. rewrite length_skipn, length_firstn. lia.
Qed.

Lemma trailing_nth (window i k : nat) (s : list cell) :
  (window <= S i)%nat -> (k < window)%nat ->
  nth k (trailing window i s) NaN = nth (S i - window + k) s NaN.
Proof.
  intros Hw Hk. unfold trailing. rewrite nth_skipn, nth_firstn.
  destruct (Nat.ltb_spec (S i - window + k) (S i)); [reflexivity | lia].
Qed.

Lemma rolling_mean_nth (window i : nat) (s : list cell) :
  (i < List.length s)%nat ->
  nth i (rolling_mean window s) NaN
  = window_mean window (trailing window i s).
Proof.
  intro H. unfold rolling_mean.
  rewrite (nth_indep _ NaN (window_mean window (trailing window 0 s)))
    by (rewrite length_map, length_seq; exact H).
  rewrite (map_nth (fun j => window_mean window (trailing window j s))).
  rewrite seq_nth by exact H. reflexivity.
Qed.

Lemma mean_present (w : list cell) :
  present w <> [] ->
  mean w = Some (Qsum (present w)
                 / inject_Z (Z.of_nat (List.length (present w)))).
Proof.
  unfold mean. destruct (present w); [congruence | reflexivity].
Qed.

(** On a column without missing values: the first [window - 1] rolling
    means are missing, every later one is the mean of the [window]
    values that end at its position. *)
Lemma rolling_mean_values (window i : nat) (s : list cell) :
  all_present s -> (i < List.length s)%nat -> (0 < window)%nat ->
  ((S i < window)%nat -> nth i (rolling_mean window s) NaN = NaN) /\
  ((window <= S i)%nat ->
   exists qs,
     List.length qs = window /\
     (forall k, (k < window)%nat ->
                nth (S i - window + k) s NaN = Some (nth k qs 0)) /\
     nth i (rolling_mean window s) NaN
     = Some (Qsum qs / inject_Z (Z.of_nat window))).
Proof.
  intros Hs Hi Hw. rewrite (rolling_mean_nth _ _ _ Hi).
  assert (Hp : all_present (trailing window i s)).
  { apply all_present_skipn, all_present_firstn. exact Hs. }
  pose proof (present_length _ Hp) as Lp.
  rewrite (trailing_length _ _ _ Hi) in Lp.
  unfold window_mean. split; intro H.
  - destruct (Nat.eqb_spec (List.length (present (trailing window i s)))
                window); [lia | reflexivity].
  - assert (E : List.length (present (trailing window i s)) = window)
      by lia.
    rewrite E, Nat.eqb_refl.
    exists (present (trailing window i s)). split; [exact E|]. split.
    + intros k Hk. rewrite <- (trailing_nth window i k s H Hk).
      rewrite <- (present_all _ Hp) at 1.
      rewrite (nth_indep _ NaN (Some 0)) by (rewrite length_map; lia).
      apply (map_nth Some).
    + rewrite mean_present, E; [reflexivity|].
      intro N. rewrite N in E. simpl in E. lia.
Qed.

(* ================================================================== *)
(** ** Missing values of the returned table *)

(** Every column of the returned table but Liq_MA20 can be read and has
    no missing value. *)
Lemma transformed_complete (a b df : DataFrame) (W G P S I : list cell)
    (name : string) :
  transformed a b df W G P S I ->
  all_present W -> all_present G -> all_present P ->
  all_present S -> all_present I ->
  In name (columns df) -> name <> "Liq_MA20"%string ->
  exists col, getitem df name = Returned col /\ all_present col.
Proof.
  intros T PW PG PP PS PI Hin Hne.
  destruct (string_dec name "Net_Liquidity") as [->|n1].
  { eexists. split; [apply (tr_Net_Liquidity _ _ _ _ _ _ _ _ T)|].
    apply all_present_net_liquidity; assumption. }
  destruct (string_dec name "Rate_Spread") as [->|n2].
  { eexists. split; [apply (tr_Rate_Spread _ _ _ _ _ _ _ _ T)|].
    apply all_present_series_sub; assumption. }
  rewrite (tr_raw _ _ _ _ _ _ _ _ T) by assumption.
  apply cleaned_getitem.
  apply (tr_columns _ _ _ _ _ _ _ _ T) in Hin. tauto.
Qed.

(** C3, as the code has it: on valid panels the transform returns a
    table in which no row misses a value in any column other than
    Liq_MA20, and Liq_MA20 is missing in exactly the first nineteen
    rows (in all of them when fewer than twenty are retained). *)
Theorem C3_complete_except_Liq_MA20 (df_fred df_yf : DataFrame) :
  valid_panel fred_tickers df_fred = true ->
  valid_panel yf_tickers df_yf = true ->
  exists df,
    transform df_fred df_yf = Returned df /\
    (forall r name,
       In r (rows df) -> In name (columns df) ->
       name <> "Liq_MA20"%string ->
       exists q, row_get df r name = Returned (Some q)) /\
    (forall i, (i < List.length (rows df))%nat ->
       (row_get df (nth i (rows df) (0%Z, [])) "Liq_MA20" = Returned NaN
        <-> (i < 19)%nat)).
Proof.
  intros Ha Hb.
  destruct (transform_valid _ _ Ha Hb)
    as (df & W & G & P & S & I & Ht & T & PW & PG & PP & PS & PI).
  exists df. split; [exact Ht|]. split.
  - intros r name Hr Hin Hne.
    destruct (transformed_complete _ _ _ _ _ _ _ _ name T PW PG PP PS PI
                Hin Hne) as (col & Hcol & Pcol).
    destruct (In_nth _ _ (0%Z, []) Hr) as (i & Hi & <-).
    rewrite (row_get_getitem _ _ _ _ _ Hcol Hi).
    destruct (all_present_nth col i Pcol) as [q Hq].
    + rewrite (getitem_length _ _ _ Hcol). exact Hi.
    + exists q. rewrite Hq. reflexivity.
  - intros i Hi.
    rewrite (row_get_getitem _ _ _ _ _ (tr_Liq_MA20 _ _ _ _ _ _ _ _ T) Hi).
    pose proof (getitem_length _ _ _ (tr_Net_Liquidity _ _ _ _ _ _ _ _ T))
      as LN.
    assert (HiN : (i < List.length (net_liquidity W G P))%nat)
      by (rewrite LN; exact Hi).
    destruct (rolling_mean_values 20 i (net_liquidity W G P))
      as [Hlow Hhigh];
      [apply all_present_net_liquidity; assumption | exact HiN | lia |].
    destruct (Nat.lt_ge_cases i 19) as [Hlt|Hge].
    + rewrite Hlow by lia. split; [intros _; exact Hlt | reflexivity].
    + destruct Hhigh as (qs & _ & _ & ->); [lia|].
      split; [discriminate | lia].
Qed.

Lemma C3_complete_except_Liq_MA20_witness :
  exists df,
    transform thirty_days_fred thirty_days_yf = Returned df /\
    (forall r name,
       In r (rows df) -> In name (columns df) ->
       name <> "Liq_MA20"%string ->
       exists q, row_get df r name = Returned (Some q)) /\
    (forall i, (i < List.length (rows df))%nat ->
       (row_get df (nth i (rows df) (0%Z, [])) "Liq_MA20" = Returned NaN
        <-> (i < 19)%nat)).
Proof.
  apply (C3_complete_except_Liq_MA20 thirty_days_fred thirty_days_yf);
    vm_compute; reflexivity.
Defined.

(** C3 as stated fails: the six-day panels are valid, and the first row
    of the table returned for them has no Liq_MA20. *)
Lemma C3_counterexample :
  valid_panel fred_tickers six_days_fred = true /\
  valid_panel yf_tickers six_days_yf = true /\
  exists df r,
    transform six_days_fred six_days_yf = Returned df /\
    nth_error (rows df) 0 = Some r /\
    row_get df r "Liq_MA20" = Returned NaN /\
    forallb notna (snd r) = false.
Proof.
  split; [vm_compute; reflexivity|]. split; [vm_compute; reflexivity|].
  eexists. eexists. split; [vm_compute; reflexivity|].
  split; [reflexivity|]. split; reflexivity.
Qed.

(* ================================================================== *)
(** ** Rows by position *)

Lemma iloc_from_end (df : DataFrame) (k : nat) :
  (1 <= k <= List.length (rows df))%nat ->
  iloc df (- Z.of_nat k)
  = Returned (mkSeries (columns df)
                (snd (nth (List.length (rows df) - k) (rows df)
                          (0%Z, [])))).
Proof.
  intro H. unfold iloc.
  destruct (Z.ltb_spec (- Z.of_nat k) 0); [|lia].
  destruct (Z.leb_spec 0 (Z.of_nat (List.length (rows df)) + - Z.of_nat k));
    [|lia].
  destruct (Z.ltb_spec (Z.of_nat (List.length (rows df)) + - Z.of_nat k)
              (Z.of_nat (List.length (rows df)))); [|lia].
  simpl. do 4 f_equal. lia.
Qed.

Lemma iloc_too_short (df : DataFrame) (k : nat) :
  (List.length (rows df) < k)%nat ->
  iloc df (- Z.of_nat k) = Raised IndexError.
Proof.
  intro H. unfold iloc.
  destruct (Z.ltb_spec (- Z.of_nat k) 0); [|lia].
  destruct (Z.leb_spec 0 (Z.of_nat (List.length (rows df)) + - Z.of_nat k));
    [lia|].
  reflexivity.
Qed.

Lemma series_get_row (df : DataFrame) (name : string) (col : list cell)
    (i : nat) :
  getitem df name = Returned col -> (i < List.length (rows df))%nat ->
  series_get (mkSeries (columns df) (snd (nth i (rows df) (0%Z, [])))) name
  = Returned (nth i col NaN).
Proof. apply row_get_getitem. Qed.

(** Lines 55, 56 and 67: the delta compares the last row with the fifth
    row from the end, which is four positions before the last. *)
Lemma liq_diff_positions (df : DataFrame) (liq : list cell) :
  getitem df "Net_Liquidity" = Returned liq ->
  (5 <= List.length (rows df))%nat ->
  liq_diff df
  = Returned (cell_sub (nth (List.length (rows df) - 1) liq NaN)
                       (nth (List.length (rows df) - 1 - 4) liq NaN)).
Proof.
  intros Hl Hn. unfold liq_diff.
  change (-1)%Z with (- Z.of_nat 1)%Z. change (-5)%Z with (- Z.of_nat 5)%Z.
  rewrite !iloc_from_end by lia.
  rewrite !(series_get_row _ _ _ _ Hl) by lia.
  do 3 f_equal. lia.
Qed.

(* ================================================================== *)
(** ** The page on a table of five rows or more *)

Lemma presenter_returns (df : DataFrame) :
  (5 <= List.length (rows df))%nat ->
  (forall name, In name page_labels -> In name (columns df)) ->
  exists log d,
    presenter df = (log, Returned tt) /\
    liq_diff df = Returned d /\
    liquidity_deltas log = [d].
Proof.
  intros Hn Hlab.
  destruct (getitem_In df "Net_Liquidity") as [liq Hliq];
    [apply Hlab; simpl; tauto|].
  destruct (getitem_In df "WTREGEN") as [tga Htga];
    [apply Hlab; simpl; tauto|].
  destruct (getitem_In df "RRPONTSYD") as [rrp Hrrp];
    [apply Hlab; simpl; tauto|].
  destruct (getitem_In df "^GSPC") as [gspc Hgspc];
    [apply Hlab; simpl; tauto|].
  destruct (getitem_In df "Rate_Spread") as [spread Hspread];
    [apply Hlab; simpl; tauto|].
  destruct (getitem_In df "^VIX") as [vix Hvix];
    [apply Hlab; simpl; tauto|].
  destruct (getitem_In df "^MOVE") as [move Hmove];
    [apply Hlab; simpl; tauto|].
  rewrite (liq_diff_positions df liq Hliq Hn).
  replace (List.length (rows df) - 1 - 4)%nat
    with (List.length (rows df) - 5)%nat by lia.
  set (n := List.length (rows df)) in *.
  assert (E1 : iloc df (-1)
               = Returned (mkSeries (columns df)
                             (snd (nth (n - 1) (rows df) (0%Z, [])))))
    by (apply (iloc_from_end df 1); lia).
  assert (E5 : iloc df (-5)
               = Returned (mkSeries (columns df)
                             (snd (nth (n - 5) (rows df) (0%Z, [])))))
    by (apply (iloc_from_end df 5); lia).
  destruct (recommendation_returns (nth (n - 1) spread NaN)
              (nth (n - 1) vix NaN)
              (cell_sub (nth (n - 1) liq NaN) (nth (n - 5) liq NaN)))
    as (rlog & r & Hr).
  assert (Hd : liquidity_deltas rlog = []).
  { revert Hr. unfold recommendation.
    destruct (cell_ge _ _); [intro E; injection E as <- _; reflexivity|].
    destruct (_ && _); intro E; injection E as <- _; reflexivity. }
  unfold presenter. rewrite E1, E5.
  cbn [bind lift emit ret].
  rewrite !(series_get_row _ _ _ _ Hliq) by lia.
  cbn [bind lift emit ret].
  rewrite (series_get_row _ _ _ _ Htga) by lia.
  cbn [bind lift emit ret].
  rewrite (series_get_row _ _ _ _ Hrrp) by lia.
  cbn [bind lift emit ret].
  rewrite Hliq. cbn [bind lift emit ret].
  rewrite Hgspc. cbn [bind lift emit ret].
  rewrite (series_get_row _ _ _ _ Hspread) by lia.
  cbn [bind lift emit ret].
  rewrite Hspread. cbn [bind lift emit ret].
  rewrite (series_get_row _ _ _ _ Hvix) by lia.
  cbn [bind lift emit ret].
  rewrite (series_get_row _ _ _ _ Hmove) by lia.
  cbn [bind lift emit ret].
  rewrite Hvix. cbn [bind lift emit ret].
  rewrite Hmove. cbn [bind lift emit ret].
  rewrite Hr. cbn [app].
  eexists. eexists. split; [reflexivity|]. split; [reflexivity|].
  rewrite app_nil_r. simpl. rewrite Hd. reflexivity.
Qed.

(* ================================================================== *)
(** ** What the page depends on *)

Lemma series_get_row_getitem (df : DataFrame) (name : string) (i : nat) :
  (i < List.length (rows df))%nat ->
  series_get (mkSeries (columns df) (snd (nth i (rows df) (0%Z, [])))) name
  = match getitem df name with
    | Returned col => Returned (nth i col NaN)
    | Raised e => Raised e
    end.
Proof.
  intro Hi. destruct (getitem df name) as [col|e] eqn:E.
  - apply (series_get_row _ _ _ _ E Hi).
  - revert E. unfold getitem, series_get. simpl.
    destruct (get_loc name (columns df)); [discriminate|].
    intro E. injection E as <-. reflexivity.
Qed.

Lemma iloc_cases (df : DataFrame) (k : Z) :
  (exists i, (i < List.length (rows df))%nat /\
     i = Z.to_nat (if (k <? 0)%Z
                   then (Z.of_nat (List.length (rows df)) + k)%Z else k) /\
     iloc df k = Returned (mkSeries (columns df)
                             (snd (nth i (rows df) (0%Z, []))))) \/
  (iloc df k = Raised IndexError /\
   forall df', List.length (rows df') = List.length (rows df) ->
               iloc df' k = Raised IndexError).
Proof.
  unfold iloc.
  set (p := if (k <? 0)%Z
            then (Z.of_nat (List.length (rows df)) + k)%Z else k).
  destruct ((0 <=? p)%Z && (p <? Z.of_nat (List.length (rows df)))%Z)
    eqn:E.
  - left. exists (Z.to_nat p). split; [|split; reflexivity].
    apply andb_true_iff in E. destruct E as [E1 E2].
    apply Z.leb_le in E1. apply Z.ltb_lt in E2. lia.
  - right. split; [reflexivity|]. intros df' ->. fold p. rewrite E.
    reflexivity.
Qed.

(** Two tables with the same index and the same columns under the
    labels the page reads give the same page. *)
Lemma presenter_ext (df df' : DataFrame) :
  index df' = index df ->
  (forall name, In name page_labels -> getitem df' name = getitem df name) ->
  presenter df' = presenter df.
Proof.
  intros Hix Hget.
  assert (Hlen : List.length (rows df') = List.length (rows df)).
  { transitivity (List.length (index df')); [symmetry; apply length_map|].
    rewrite Hix. apply length_map. }
  assert (Hrow : forall k name, In name page_labels ->
            match iloc df' k, iloc df k with
            | Returned s', Returned s =>
                series_get s' name = series_get s name
            | Raised e', Raised e => e' = e
            | _, _ => False
            end).
  { intros k name Hn.
    destruct (iloc_cases df k) as [(i & Hi & Ei & Ek)|[Ek H]].
    - destruct (iloc_cases df' k) as [(i' & Hi' & Ei' & Ek')|[_ H]].
      + assert (i' = i) by (rewrite Ei, Ei', Hlen; reflexivity).
        clear Ei'. subst i'. rewrite Ek, Ek'.
        rewrite !series_get_row_getitem by assumption.
        rewrite (Hget name Hn). reflexivity.
      + rewrite (H df) in Ek by (symmetry; exact Hlen). discriminate.
    - rewrite Ek, (H df' Hlen). reflexivity. }
  unfold presenter.
  pose proof (fun name => Hrow (-1)%Z name) as H1.
  pose proof (fun name => Hrow (-5)%Z name) as H5.
  destruct (iloc df' (-1)) as [last'|e1'], (iloc df (-1)) as [last|e1];
    try (exfalso; apply (H1 "Net_Liquidity"%string); simpl; tauto).
  2: { rewrite (H1 "Net_Liquidity"%string) by (simpl; tauto). reflexivity. }
  destruct (iloc df' (-5)) as [prev'|e5'], (iloc df (-5)) as [prev|e5];
    try (exfalso; apply (H5 "Net_Liquidity"%string); simpl; tauto).
  2: { rewrite (H5 "Net_Liquidity"%string) by (simpl; tauto). reflexivity. }
  cbn [bind lift emit ret].
  rewrite Hix.
  rewrite (Hget "Net_Liquidity"%string), (Hget "^GSPC"%string),
    (Hget "Rate_Spread"%string), (Hget "^VIX"%string),
    (Hget "^MOVE"%string) by (simpl; tauto).
  rewrite (H1 "Net_Liquidity"%string), (H1 "WTREGEN"%string),
    (H1 "RRPONTSYD"%string), (H1 "Rate_Spread"%string),
    (H1 "^VIX"%string), (H1 "^MOVE"%string) by (simpl; tauto).
  rewrite (H5 "Net_Liquidity"%string) by (simpl; tauto).
  reflexivity.
Qed.

Lemma setitem_Returned_length (df df' : DataFrame) (name : string)
    (s : list cell) :
  setitem df name s = Returned df' ->
  List.length s = List.length (rows df).
Proof.
  unfold setitem.
  destruct (Nat.eqb_spec (List.length s) (List.length (rows df)));
    [intros _; assumption | discriminate].
Qed.

(** The page never reads Liq_MA20: whatever the column holds, the page
    is the same. *)
Lemma presenter_ignores_Liq_MA20 (df df' : DataFrame) (s : list cell) :
  wf df -> setitem df "Liq_MA20" s = Returned df' ->
  presenter df' = presenter df.
Proof.
  intros Hwf Hset.
  pose proof (setitem_Returned_length _ _ _ _ Hset) as Hlen.
  apply presenter_ext.
  - apply (setitem_index _ _ _ Hlen _ Hset).
  - intros name Hn. apply (getitem_setitem_other _ _ _ Hwf Hlen _ Hset).
    intros ->. simpl in Hn. repeat destruct Hn as [Hn|Hn];
      try discriminate; contradiction.
Qed.

(* ================================================================== *)
(** ** The script on answering providers *)

Lemma get_market_data_returns (w : world) (df_fred df_yf df : DataFrame)
    (prices : list (string * DataFrame)) :
  get_data_fred w fred_tickers = Returned df_fred ->
  yf_download w yf_tickers = Returned prices ->
  field prices "Close" = Returned df_yf ->
  transform df_fred df_yf = Returned df ->
  get_market_data w = ([st_spinner], Returned (Some df)).
Proof.
  intros Hf Hy Hc Ht. unfold get_market_data. rewrite Hf, Hy.
  cbn [bind lift emit ret]. rewrite Hc. cbn [bind lift emit ret].
  rewrite Ht. reflexivity.
Qed.

Lemma app_presenter (w : world) (df : DataFrame) :
  get_market_data w = ([st_spinner], Returned (Some df)) ->
  app w = ([st_set_page_config; st_title; st_markdown; st_spinner]
             ++ fst (presenter df),
           snd (presenter df)).
Proof.
  intro H. unfold app. rewrite H. cbn [bind lift emit ret].
  destruct (presenter df) as [log r]. reflexivity.
Qed.

Lemma presenter_too_short (df : DataFrame) :
  (List.length (rows df) < 5)%nat ->
  presenter df = ([], Raised IndexError).
Proof.
  intro H. unfold presenter.
  assert (E5 : iloc df (-5) = Raised IndexError)
    by (apply (iloc_too_short df 5); exact H).
  rewrite E5. destruct (Nat.eq_dec (List.length (rows df)) 0) as [E|E].
  - assert (E1 : iloc df (-1) = Raised IndexError)
      by (apply (iloc_too_short df 1); lia).
    rewrite E1. reflexivity.
  - assert (E1 : iloc df (-1)
                 = Returned (mkSeries (columns df)
                     (snd (nth (List.length (rows df) - 1) (rows df)
                               (0%Z, [])))))
      by (apply (iloc_from_end df 1); lia).
    rewrite E1. reflexivity.
Qed.

Lemma transformed_page_labels (a b df : DataFrame) (W G P S I : list cell) :
  valid_panel fred_tickers a = true -> valid_panel yf_tickers b = true ->
  transformed a b df W G P S I ->
  forall name, In name page_labels -> In name (columns df).
Proof.
  intros Ha Hb T name Hn. apply (tr_columns _ _ _ _ _ _ _ _ T).
  simpl in Hn.
  destruct Hn as [<-|[<-|[<-|[<-|[<-|[<-|[<-|[]]]]]]]]; try tauto;
    left; apply (valid_panels_labels a b _ Ha Hb); simpl; tauto.
Qed.


(* ================================================================== *)
(** ** The liquidity delta on six days *)

(** C4, on the six-day panels, whose Net_Liquidity is 1, 2, 3, 4, 5, 6:
    the table has six rows; the delta the code computes and the page
    shows is 6 - 2 = 4, the last row against the fifth row from the end,
    which lies four positions before the last; the last row against the
    row five positions before it is 6 - 1 = 5. *)
Theorem C4_liq_diff_on_six_days :
  exists df d d',
    transform six_days_fred six_days_yf = Returned df /\
    List.length (rows df) = 6%nat /\
    liq_diff df = Returned (Some d) /\ d == 4 /\
    liquidity_deltas (fst (app six_days)) = [Some d] /\
    liq_diff_five_rows_prior df = Returned (Some d') /\ d' == 5.
Proof.
  eexists. eexists. eexists.
  split; [vm_compute; reflexivity|].
  split; [reflexivity|].
  split; [vm_compute; reflexivity|].
  split; [reflexivity|].
  split; [vm_compute; reflexivity|].
  split; [vm_compute; reflexivity | reflexivity].
Qed.

(* ================================================================== *)
(** ** Further properties: the transform on any panels *)

Lemma mem_get_loc (name : string) (cols : list string) :
  mem name cols = false <-> get_loc name cols = None.
Proof.
  unfold mem. induction cols as [|c cols IH]; simpl; [tauto|].
  rewrite (String.eqb_sym name c).
  destruct (String.eqb c name); simpl; [split; discriminate|].
  rewrite IH. destruct (get_loc name cols); simpl; split; congruence.
Qed.

Lemma mem_In (name : string) (cols : list string) :
  mem name cols = true <-> In name cols.
Proof.
  unfold mem. rewrite existsb_exists. split.
  - intros (c & Hc & E). apply String.eqb_eq in E. subst c. exact Hc.
  - intro H. exists name. split; [exact H | apply String.eqb_refl].
Qed.

Lemma getitem_missing (df : DataFrame) (name : string) :
  mem name (columns df) = false ->
  getitem df name = Raised (KeyError name).
Proof.
  intro H. apply mem_get_loc in H. unfold getitem. rewrite H. reflexivity.
Qed.

(** The three assignments of lines 44-48 succeed once the five columns
    have been read. *)
Lemma transform_chain (a b : DataFrame) (W G P S I : list cell) :
  getitem (cleaned a b) "WALCL" = Returned W ->
  getitem (cleaned a b) "WTREGEN" = Returned G ->
  getitem (cleaned a b) "RRPONTSYD" = Returned P ->
  exists df1,
    setitem (cleaned a b) "Net_Liquidity" (net_liquidity W G P)
    = Returned df1 /\
    (getitem (cleaned a b) "SOFR" = Returned S ->
     getitem (cleaned a b) "IORB" = Returned I ->
     exists df2 df3,
       setitem df1 "Rate_Spread" (series_sub S I) = Returned df2 /\
       setitem df2 "Liq_MA20" (rolling_mean 20 (net_liquidity W G P))
       = Returned df3 /\
       transform a b = Returned df3) /\
    (forall e, getitem (cleaned a b) "SOFR" = Raised e ->
               transform a b = Raised e) /\
    (forall e, getitem (cleaned a b) "SOFR" = Returned S ->
               getitem (cleaned a b) "IORB" = Raised e ->
               transform a b = Raised e).
Proof.
  intros HW HG HP.
  pose proof (cleaned_wf a b) as Hwf0.
  pose proof (getitem_length _ _ _ HW) as LW.
  pose proof (getitem_length _ _ _ HG) as LG.
  pose proof (getitem_length _ _ _ HP) as LP.
  pose proof (net_liquidity_length W G P _ LW LG LP) as L1.
  destruct (setitem_returns (cleaned a b) "Net_Liquidity" _ L1) as [df1 H1].
  pose proof (setitem_wf _ _ _ Hwf0 L1 _ H1) as Hwf1.
  pose proof (setitem_rows_length _ _ _ L1 _ H1) as R1.
  assert (Hhead : transform a b
            = (SOFR <~ getitem (cleaned a b) "SOFR" ;
               IORB <~ getitem (cleaned a b) "IORB" ;
               df <~ setitem df1 "Rate_Spread" (series_sub SOFR IORB) ;
               Net_Liquidity <~ getitem df "Net_Liquidity" ;
               setitem df "Liq_MA20" (rolling_mean 20 Net_Liquidity))).
  { unfold transform. fold (cleaned a b). rewrite HW, HG, HP.
    cbn [and_then]. fold (net_liquidity W G P). rewrite H1.
    cbn [and_then].
    rewrite !(getitem_setitem_other _ _ _ Hwf0 L1 _ H1) by discriminate.
    reflexivity. }
  exists df1. split; [exact H1|]. split; [|split].
  - intros HS HI.
    pose proof (getitem_length _ _ _ HS) as LS.
    pose proof (getitem_length _ _ _ HI) as LI.
    assert (L2 : List.length (series_sub S I) = List.length (rows df1)).
    { rewrite series_sub_length; congruence. }
    destruct (setitem_returns df1 "Rate_Spread" _ L2) as [df2 H2].
    pose proof (setitem_wf _ _ _ Hwf1 L2 _ H2) as Hwf2.
    pose proof (setitem_rows_length _ _ _ L2 _ H2) as R2.
    assert (L3 : List.length (rolling_mean 20 (net_liquidity W G P))
                 = List.length (rows df2)).
    { rewrite rolling_mean_length. congruence. }
    destruct (setitem_returns df2 "Liq_MA20" _ L3) as [df3 H3].
    exists df2, df3. split; [exact H2|]. split; [exact H3|].
    rewrite Hhead, HS, HI. cbn [and_then]. rewrite H2. cbn [and_then].
    rewrite (getitem_setitem_other _ _ _ Hwf1 L2 _ H2) by discriminate.
    rewrite (getitem_setitem_same _ _ _ Hwf0 L1 _ H1). exact H3.
  - intros e HS. rewrite Hhead, HS. reflexivity.
  - intros e HS HI. rewrite Hhead, HS, HI. reflexivity.
Qed.

Lemma cleaned_getitem_mem (a b : DataFrame) (name : string) :
  mem name (columns a ++ columns b) = true ->
  exists col, getitem (cleaned a b) name = Returned col.
Proof.
  intro H. apply mem_In in H.
  destruct (cleaned_getitem a b name H) as (col & Hc & _).
  exists col. exact Hc.
Qed.

Lemma cleaned_getitem_missing (a b : DataFrame) (name : string) :
  mem name (columns a ++ columns b) = false ->
  getitem (cleaned a b) name = Raised (KeyError name).
Proof.
  intro H. apply getitem_missing. rewrite cleaned_columns. exact H.
Qed.

(** What [transform] does, by the first missing input column. *)
Lemma transform_outcome (a b : DataFrame) :
  match first_missing derived_inputs (columns a ++ columns b) with
  | Some t => transform a b = Raised (KeyError t)
  | None => exists df, transform a b = Returned df
  end.
Proof.
  unfold first_missing, derived_inputs. cbn [find].
  destruct (mem "WALCL" (columns a ++ columns b)) eqn:M1; cbn [negb].
  2: { unfold transform. fold (cleaned a b).
       rewrite (cleaned_getitem_missing _ _ _ M1). reflexivity. }
  destruct (cleaned_getitem_mem _ _ _ M1) as [W HW].
  destruct (mem "WTREGEN" (columns a ++ columns b)) eqn:M2; cbn [negb].
  2: { unfold transform. fold (cleaned a b).
       rewrite HW, (cleaned_getitem_missing _ _ _ M2). reflexivity. }
  destruct (cleaned_getitem_mem _ _ _ M2) as [G HG].
  destruct (mem "RRPONTSYD" (columns a ++ columns b)) eqn:M3; cbn [negb].
  2: { unfold transform. fold (cleaned a b).
       rewrite HW, HG, (cleaned_getitem_missing _ _ _ M3). reflexivity. }
  destruct (cleaned_getitem_mem _ _ _ M3) as [P HP].
  destruct (transform_chain a b W G P [] [] HW HG HP)
    as (df1 & _ & _ & Hs & _).
  destruct (mem "SOFR" (columns a ++ columns b)) eqn:M4; cbn [negb].
  2: { apply Hs. apply (cleaned_getitem_missing _ _ _ M4). }
  destruct (cleaned_getitem_mem _ _ _ M4) as [S HS].
  destruct (transform_chain a b W G P S [] HW HG HP)
    as (df1' & _ & _ & _ & Hi).
  destruct (mem "IORB" (columns a ++ columns b)) eqn:M5; cbn [negb].
  2: { apply (Hi _ HS). apply (cleaned_getitem_missing _ _ _ M5). }
  destruct (cleaned_getitem_mem _ _ _ M5) as [I HI].
  destruct (transform_chain a b W G P S I HW HG HP)
    as (df1'' & _ & Hok & _ & _).
  destruct (Hok HS HI) as (df2 & df3 & _ & _ & Ht).
  exists df3. exact Ht.
Qed.

Lemma transform_returned_labels (a b df : DataFrame) :
  transform a b = Returned df ->
  forall t, In t derived_inputs -> In t (columns a ++ columns b).
Proof.
  intros Ht t Hin. pose proof (transform_outcome a b) as H.
  destruct (first_missing derived_inputs (columns a ++ columns b))
    as [m|] eqn:E.
  - rewrite H in Ht. discriminate.
  - unfold first_missing in E.
    pose proof (find_none _ _ E t Hin) as N. simpl in N.
    apply negb_false_iff in N. apply mem_In. exact N.
Qed.

(** X1: on panels that are tables (ascending index without repeated
    timestamps, one cell per column) with no label in common or
    repeated, [transform] ends only by returning a table or by KeyError:
    it raises KeyError for the first of WALCL, WTREGEN, RRPONTSYD, SOFR,
    IORB that neither panel brings, and returns a table when all five
    are there. *)
Theorem X1_transform_raises_KeyError_of_first_missing (a b : DataFrame) :
  table_like a = true -> table_like b = true ->
  distinct (columns a ++ columns b) = true ->
  match first_missing derived_inputs (columns a ++ columns b) with
  | Some t => transform a b = Raised (KeyError t)
  | None => exists df, transform a b = Returned df
  end.
Proof. intros _ _ _. apply transform_outcome. Qed.

Lemma X1_transform_witness :
  transform six_days_fred_no_iorb six_days_yf = Raised (KeyError "IORB").
Proof.
  exact (X1_transform_raises_KeyError_of_first_missing
           six_days_fred_no_iorb six_days_yf eq_refl eq_refl eq_refl).
Defined.

Lemma same_labels_sub (cols tickers : list string) (c : string) :
  same_labels cols tickers = true -> In c cols -> In c tickers.
Proof.
  unfold same_labels. rewrite !andb_true_iff. intros [_ H] Hc.
  rewrite forallb_forall in H. apply mem_In. apply H. exact Hc.
Qed.

Lemma same_labels_length (cols tickers : list string) :
  same_labels cols tickers = true ->
  List.length cols = List.length tickers.
Proof.
  unfold same_labels. rewrite !andb_true_iff. intros [[H _] _].
  apply Nat.eqb_eq. exact H.
Qed.

Lemma valid_panel_same_labels (tickers : list string) (df : DataFrame) :
  valid_panel tickers df = true -> same_labels (columns df) tickers = true.
Proof.
  unfold valid_panel. rewrite !andb_true_iff. intros [[H _] _]. exact H.
Qed.

(** No ticker is the label of a derived column. *)
Lemma valid_panels_fresh (a b : DataFrame) (t : string) :
  valid_panel fred_tickers a = true -> valid_panel yf_tickers b = true ->
  In t derived_labels -> get_loc t (columns a ++ columns b) = None.
Proof.
  intros Ha Hb Ht.
  destruct (get_loc t (columns a ++ columns b)) as [p|] eqn:E;
    [|reflexivity].
  exfalso. apply get_loc_Some_In in E. apply in_app_iff in E.
  assert (Hin : In t (fred_tickers ++ yf_tickers)).
  { apply in_app_iff. destruct E as [E|E].
    - left. apply (same_labels_sub _ _ _ (valid_panel_same_labels _ _ Ha) E).
    - right.
      apply (same_labels_sub _ _ _ (valid_panel_same_labels _ _ Hb) E). }
  simpl in Ht, Hin.
  repeat (destruct Ht as [Ht|Ht]; [subst t; simpl in Hin;
    repeat (destruct Hin as [Hin|Hin]; [discriminate|]); contradiction|]).
  contradiction.
Qed.

Lemma setitem_fresh_columns (df df' : DataFrame) (name : string)
    (s : list cell) :
  get_loc name (columns df) = None ->
  setitem df name s = Returned df' ->
  columns df' = columns df ++ [name].
Proof.
  intros Hn. unfold setitem.
  destruct (negb (List.length s =? List.length (rows df))%nat);
    [discriminate|].
  rewrite Hn. intro H. injection H as <-. reflexivity.
Qed.

(** X2: on valid panels the returned table has twelve columns: the
    columns of the FRED panel, those of the Yahoo panel, then
    Net_Liquidity, Rate_Spread and Liq_MA20 in this order; every row has
    twelve cells. *)
Theorem X2_columns_of_the_returned_table (df_fred df_yf : DataFrame) :
  valid_panel fred_tickers df_fred = true ->
  valid_panel yf_tickers df_yf = true ->
  exists df,
    transform df_fred df_yf = Returned df /\
    columns df
    = columns df_fred ++ columns df_yf
      ++ ["Net_Liquidity"; "Rate_Spread"; "Liq_MA20"]%string /\
    List.length (columns df) = 12%nat /\
    forall r, In r (rows df) -> List.length (snd r) = 12%nat.
Proof.
  intros Ha Hb.
  destruct (transform_valid _ _ Ha Hb)
    as (df & W & G & P & S & I & Ht & T & _).
  destruct (transform_chain df_fred df_yf W G P S I
              (tr_WALCL _ _ _ _ _ _ _ _ T) (tr_WTREGEN _ _ _ _ _ _ _ _ T)
              (tr_RRPONTSYD _ _ _ _ _ _ _ _ T))
    as (df1 & H1 & Hok & _).
  destruct (Hok (tr_SOFR _ _ _ _ _ _ _ _ T) (tr_IORB _ _ _ _ _ _ _ _ T))
    as (df2 & df3 & H2 & H3 & Ht3).
  rewrite Ht in Ht3. injection Ht3 as <-.
  assert (F : forall t, In t derived_labels ->
                get_loc t (columns df_fred ++ columns df_yf) = None)
    by (intros t; apply (valid_panels_fresh _ _ t Ha Hb)).
  assert (C1 : columns df1
               = (columns df_fred ++ columns df_yf) ++ ["Net_Liquidity"]%string).
  { rewrite <- cleaned_columns. apply (setitem_fresh_columns _ _ _ _ ) in H1;
      [exact H1|]. rewrite cleaned_columns. apply F. simpl. tauto. }
  assert (C2 : columns df2 = columns df1 ++ ["Rate_Spread"]%string).
  { apply (setitem_fresh_columns _ _ _ _ ) in H2; [exact H2|].
    rewrite C1, get_loc_app_new by (apply F; simpl; tauto). reflexivity. }
  assert (C3 : columns df = columns df2 ++ ["Liq_MA20"]%string).
  { apply (setitem_fresh_columns _ _ _ _ ) in H3; [exact H3|].
    rewrite C2, get_loc_app_new; [reflexivity|].
    rewrite C1, get_loc_app_new by (apply F; simpl; tauto). reflexivity. }
  assert (C : columns df
              = columns df_fred ++ columns df_yf
                ++ ["Net_Liquidity"; "Rate_Spread"; "Liq_MA20"]%string).
  { rewrite C3, C2, C1, <- !app_assoc. reflexivity. }
  assert (L : List.length (columns df) = 12%nat).
  { rewrite C, !length_app.
    rewrite (same_labels_length _ _ (valid_panel_same_labels _ _ Ha)).
    rewrite (same_labels_length _ _ (valid_panel_same_labels _ _ Hb)).
    reflexivity. }
  exists df. split; [exact Ht|]. split; [exact C|]. split; [exact L|].
  intros r Hr. rewrite (tr_wf _ _ _ _ _ _ _ _ T r Hr). exact L.
Qed.

Lemma X2_columns_witness :
  exists df,
    transform thirty_days_fred thirty_days_yf = Returned df /\
    columns df
    = columns thirty_days_fred ++ columns thirty_days_yf
      ++ ["Net_Liquidity"; "Rate_Spread"; "Liq_MA20"]%string /\
    List.length (columns df) = 12%nat /\
    forall r, In r (rows df) -> List.length (snd r) = 12%nat.
Proof.
  apply (X2_columns_of_the_returned_table thirty_days_fred thirty_days_yf);
    vm_compute; reflexivity.
Defined.

(* ================================================================== *)
(** ** Further properties: the calendar of the returned table *)

Lemma day_run_length (d0 : Z) (n : nat) : List.length (day_run d0 n) = n.
Proof. unfold day_run. rewrite length_map, length_seq. reflexivity. Qed.

Lemma seq_from (k n : nat) : seq k n = map (fun i => (k + i)%nat) (seq 0 n).
Proof.
  revert k. induction n as [|n IH]; intro k; simpl; [reflexivity|].
  rewrite Nat.add_0_r. f_equal. rewrite (IH (S k)), <- seq_shift, map_map.
  apply map_ext. intro i. lia.
Qed.

Lemma skipn_day_run (k n : nat) (d0 : Z) :
  skipn k (day_run d0 n) = day_run (d0 + Z.of_nat k) (n - k).
Proof.
  unfold day_run. rewrite skipn_map, skipn_seq. simpl.
  rewrite (seq_from k), map_map. apply map_ext. intro i.
  f_equal. lia.
Qed.

Lemma ffill_from_index (prev : list cell) (rs : list row) :
  map fst (ffill_from prev rs) = map fst rs.
Proof.
  revert prev. induction rs as [|r rs IH]; intro prev; simpl;
    [reflexivity|].
  f_equal. apply IH.
Qed.

Lemma resample_index (df : DataFrame) :
  exists d0 n, index (resample_D_mean df) = day_run d0 n.
Proof.
  unfold resample_D_mean, index. destruct (rows df) as [|r0 rs] eqn:E.
  - exists 0%Z, 0%nat. rewrite E. reflexivity.
  - exists (day_of (fst r0)),
      (Z.to_nat (day_of (fst (last (r0 :: rs) r0)) - day_of (fst r0) + 1)).
    cbn [rows]. unfold days, day_run. rewrite !map_map. reflexivity.
Qed.

Lemma cleaned_index (a b : DataFrame) :
  exists d0, index (cleaned a b)
             = day_run d0 (List.length (rows (cleaned a b))).
Proof.
  destruct (cleaned_drops_leading_rows a b) as [k Hk].
  destruct (resample_index (pd_concat a b)) as (d0 & n & Hd).
  assert (E : index (cleaned a b) = day_run (d0 + Z.of_nat k) (n - k)).
  { unfold index. rewrite Hk, <- skipn_map. cbn [fillna_ffill rows].
    rewrite ffill_from_index. fold (index (resample_D_mean (pd_concat a b))).
    rewrite Hd. apply skipn_day_run. }
  exists (d0 + Z.of_nat k)%Z. rewrite E. f_equal.
  transitivity (List.length (index (cleaned a b))).
  - rewrite E, day_run_length. reflexivity.
  - apply length_map.
Qed.

(** X3: the rows of a returned table stand on consecutive calendar days:
    its index is midnight of some day, of the next day, and so on
    without a gap, one entry per row. *)
Theorem X3_index_is_a_run_of_days (df_fred df_yf df : DataFrame) :
  transform df_fred df_yf = Returned df ->
  exists d0, index df = day_run d0 (List.length (rows df)).
Proof.
  intro Ht.
  destruct (transform_spec df_fred df_yf) as (df' & W & G & P & S & I & Ht'
                                              & T & _).
  { intros t Hin. apply (transform_returned_labels _ _ _ Ht t Hin). }
  rewrite Ht in Ht'. injection Ht' as <-.
  destruct (cleaned_index df_fred df_yf) as [d0 Hd]. exists d0.
  rewrite (tr_index _ _ _ _ _ _ _ _ T), (tr_length _ _ _ _ _ _ _ _ T).
  exact Hd.
Qed.

Lemma X3_index_witness :
  exists d0,
    index thirty_days_table
    = day_run d0 (List.length (rows thirty_days_table)).
Proof.
  apply (X3_index_is_a_run_of_days thirty_days_fred thirty_days_yf).
  vm_compute. reflexivity.
Defined.

Lemma ffill_from_leading_rows (w : nat) (prev : list cell) (rs : list row) :
  (forall r, In r rs -> List.length (snd r) = w) ->
  exists k,
    filter complete (ffill_from prev rs) = skipn k (ffill_from prev rs) /\
    (forall r, In r (firstn k (ffill_from prev rs)) -> complete r = false) /\
    (forall r, In r (skipn k (ffill_from prev rs)) -> complete r = true).
Proof.
  revert prev. induction rs as [|r1 rs IH]; intros prev Hw.
  - exists 0%nat. simpl. repeat split; intros r [].
  - simpl.
    destruct (complete (fst r1, fill_row prev (snd r1))) eqn:C.
    + assert (A : forall r,
                In r (ffill_from (fill_row prev (snd r1)) rs) ->
                complete r = true).
      { apply (ffill_from_complete w (fill_row prev (snd r1))).
        - exact C.
        - rewrite fill_row_length. apply Hw. left. reflexivity.
        - intros r Hr. apply Hw. right. exact Hr. }
      exists 0%nat. simpl. split; [|split].
      * f_equal. apply filter_all. exact A.
      * intros r [].
      * intros r [<-|Hr]; [exact C | apply A; exact Hr].
    + destruct (IH (fill_row prev (snd r1))) as (k & Hk & Hf & Hs).
      * intros r Hr. apply Hw. right. exact Hr.
      * exists (S k). simpl. split; [exact Hk|]. split; [|exact Hs].
        intros r [<-|Hr]; [exact C | apply Hf; exact Hr].
Qed.

(** X4: after the forward fill, [dropna] removes leading rows only: the
    cleaned table is the filled table without its first [k] rows, each
    of which misses a value, and every later row is complete. *)
Theorem X4_dropna_removes_leading_rows_only (df_fred df_yf : DataFrame) :
  exists k,
    let filled :=
      rows (fillna_ffill (resample_D_mean (pd_concat df_fred df_yf))) in
    rows (cleaned df_fred df_yf) = skipn k filled /\
    (forall r, In r (firstn k filled) -> forallb notna (snd r) = false) /\
    (forall r, In r (skipn k filled) -> forallb notna (snd r) = true).
Proof.
  unfold cleaned. cbn [dropna fillna_ffill rows columns].
  apply (ffill_from_leading_rows
           (List.length
              (columns (resample_D_mean (pd_concat df_fred df_yf))))).
  apply resample_wf.
Qed.

(* ================================================================== *)
(** ** Further properties: the join (line 39) *)

Lemma ascending_cons (t : timestamp) (ts : list timestamp) :
  ascending (t :: ts) = true <->
  (forall x, In x ts -> (t < x)%Z) /\ ascending ts = true.
Proof.
  revert t. induction ts as [|u ts IH]; intro t.
  - simpl. split; [intros _; split; [intros x []|reflexivity] | reflexivity].
  - change (ascending (t :: u :: ts))
      with ((t <? u)%Z && ascending (u :: ts)).
    rewrite andb_true_iff, Z.ltb_lt. split.
    + intros [Htu Hu]. split; [|exact Hu].
      apply IH in Hu. destruct Hu as [Hu _].
      intros x [<-|Hx]; [exact Htu|]. specialize (Hu x Hx). lia.
    + intros [Hall Hu]. split; [apply Hall; left; reflexivity | exact Hu].
Qed.

Lemma row_at_above (t : timestamp) (rs : list row) :
  (forall x, In x (map fst rs) -> (t < x)%Z) -> row_at t rs = None.
Proof.
  induction rs as [|r rs IH]; intro H; simpl; [reflexivity|].
  destruct (Z.eqb_spec (fst r) t) as [E|E].
  - specialize (H (fst r) (or_introl eq_refl)). lia.
  - apply IH. intros x Hx. apply H. right. exact Hx.
Qed.

Lemma row_at_pad_left (wa : nat) (t : timestamp) (rs : list row) :
  row_at t (map (pad_left wa) rs)
  = outer_join_row wa 0 None (row_at t rs).
Proof.
  induction rs as [|r rs IH]; simpl; [reflexivity|].
  destruct (fst r =? t)%Z; [reflexivity | exact IH].
Qed.

Lemma row_at_pad_right (wa wb : nat) (t : timestamp) (rs : list row) :
  row_at t (map (pad_right wb) rs)
  = outer_join_row wa wb (row_at t rs) None.
Proof.
  induction rs as [|r rs IH]; simpl; [reflexivity|].
  destruct (fst r =? t)%Z; [reflexivity | exact IH].
Qed.

Lemma merge_rows_nil_l (wa wb : nat) (b : list row) :
  merge_rows wa wb [] b = map (pad_left wa) b.
Proof. destruct b; reflexivity. Qed.

Lemma merge_rows_nil_r (wa wb : nat) (a : list row) :
  merge_rows wa wb a [] = map (pad_right wb) a.
Proof. destruct a; reflexivity. Qed.

Lemma merge_rows_cons (wa wb : nat) (ra rb : row) (a b : list row) :
  merge_rows wa wb (ra :: a) (rb :: b)
  = if (fst ra <? fst rb)%Z
    then pad_right wb ra :: merge_rows wa wb a (rb :: b)
    else if (fst rb <? fst ra)%Z
         then pad_left wa rb :: merge_rows wa wb (ra :: a) b
         else (fst ra, snd ra ++ snd rb) :: merge_rows wa wb a b.
Proof. reflexivity. Qed.

(** Every timestamp of the join comes from one of the panels. *)
Lemma merge_rows_index (wa wb : nat) (a b : list row) (x : timestamp) :
  In x (map fst (merge_rows wa wb a b)) ->
  In x (map fst a) \/ In x (map fst b).
Proof.
  revert b. induction a as [|ra a IHa]; intro b.
  - rewrite merge_rows_nil_l, map_map. intro H. right. exact H.
  - induction b as [|rb b IHb].
    + rewrite merge_rows_nil_r, map_map. intro H. left. exact H.
    + rewrite merge_rows_cons.
      destruct (fst ra <? fst rb)%Z; [|destruct (fst rb <? fst ra)%Z].
      * simpl. intros [H|H]; [left; left; exact H|].
        destruct (IHa _ H) as [H'|H']; [left; right; exact H'|].
        right. exact H'.
      * simpl. intros [H|H]; [right; left; exact H|].
        destruct (IHb H) as [H'|H']; [left; exact H'|].
        right. right. exact H'.
      * simpl. intros [H|H]; [left; left; exact H|].
        destruct (IHa _ H) as [H'|H']; [left; right; exact H'|].
        right. right. exact H'.
Qed.

Lemma merge_rows_ascending (wa wb : nat) (a b : list row) :
  ascending (map fst a) = true -> ascending (map fst b) = true ->
  ascending (map fst (merge_rows wa wb a b)) = true.
Proof.
  revert b. induction a as [|ra a IHa]; intros b Ha Hb.
  - rewrite merge_rows_nil_l, map_map. exact Hb.
  - revert Hb. induction b as [|rb b IHb]; intro Hb.
    + rewrite merge_rows_nil_r, map_map. exact Ha.
    + rewrite merge_rows_cons.
      change (map fst (ra :: a)) with (fst ra :: map fst a) in Ha.
      change (map fst (rb :: b)) with (fst rb :: map fst b) in Hb.
      pose proof (proj1 (ascending_cons _ _) Ha) as [Ha1 Ha2].
      pose proof (proj1 (ascending_cons _ _) Hb) as [Hb1 Hb2].
      destruct (Z.ltb_spec (fst ra) (fst rb)) as [L|L];
        [|destruct (Z.ltb_spec (fst rb) (fst ra)) as [L'|L']].
      * cbn [map pad_right fst]. apply ascending_cons. split.
        -- intros x Hx. apply merge_rows_index in Hx.
           destruct Hx as [Hx|Hx]; [apply Ha1; exact Hx|].
           destruct Hx as [<-|Hx]; [exact L|].
           specialize (Hb1 x Hx). lia.
        -- apply IHa; [exact Ha2 | exact Hb].
      * cbn [map pad_left fst]. apply ascending_cons. split.
        -- intros x Hx. apply merge_rows_index in Hx.
           destruct Hx as [Hx|Hx]; [|apply Hb1; exact Hx].
           destruct Hx as [<-|Hx]; [exact L'|].
           specialize (Ha1 x Hx). lia.
        -- apply IHb. exact Hb2.
      * cbn [map fst]. apply ascending_cons. split.
        -- intros x Hx. apply merge_rows_index in Hx.
           destruct Hx as [Hx|Hx]; [apply Ha1; exact Hx|].
           specialize (Hb1 x Hx). lia.
        -- apply IHa; [exact Ha2 | exact Hb2].
Qed.

Lemma merge_rows_row_at (wa wb : nat) (a b : list row) (t : timestamp) :
  ascending (map fst a) = true -> ascending (map fst b) = true ->
  row_at t (merge_rows wa wb a b)
  = outer_join_row wa wb (row_at t a) (row_at t b).
Proof.
  revert b. induction a as [|ra a IHa]; intros b Ha Hb.
  - rewrite merge_rows_nil_l, row_at_pad_left. simpl.
    destruct (row_at t b); reflexivity.
  - revert Hb. induction b as [|rb b IHb]; intro Hb.
    + rewrite merge_rows_nil_r. apply row_at_pad_right.
    + rewrite merge_rows_cons.
      change (map fst (ra :: a)) with (fst ra :: map fst a) in Ha.
      change (map fst (rb :: b)) with (fst rb :: map fst b) in Hb.
      pose proof (proj1 (ascending_cons _ _) Ha) as [Ha1 Ha2].
      pose proof (proj1 (ascending_cons _ _) Hb) as [Hb1 Hb2].
      destruct (Z.ltb_spec (fst ra) (fst rb)) as [L|L];
        [|destruct (Z.ltb_spec (fst rb) (fst ra)) as [L'|L']].
      * cbn [row_at pad_right fst snd].
        destruct (Z.eqb_spec (fst ra) t) as [E|E].
        -- destruct (Z.eqb_spec (fst rb) t) as [E'|E']; [lia|].
           rewrite (row_at_above t b); [reflexivity|].
           intros x Hx. specialize (Hb1 x Hx). lia.
        -- rewrite (IHa (rb :: b) Ha2 Hb). reflexivity.
      * cbn [row_at pad_left fst snd].
        destruct (Z.eqb_spec (fst rb) t) as [E|E].
        -- destruct (Z.eqb_spec (fst ra) t) as [E'|E']; [lia|].
           rewrite (row_at_above t a); [reflexivity|].
           intros x Hx. specialize (Ha1 x Hx). lia.
        -- rewrite (IHb Hb2). reflexivity.
      * assert (E0 : fst ra = fst rb) by lia.
        cbn [row_at fst snd]. rewrite <- E0.
        destruct (Z.eqb_spec (fst ra) t) as [E|E]; [reflexivity|].
        apply (IHa b Ha2 Hb2).
Qed.

(** X5: the join of two panels with ascending indexes is their outer
    join: its index is ascending again, and at every timestamp its row
    is the cells of the first panel followed by those of the second,
    with NaN in the columns of a panel that has no row there; it has a
    row exactly where one of the panels has one. *)
Theorem X5_pd_concat_is_the_outer_join (a b : DataFrame) :
  ascending (index a) = true -> ascending (index b) = true ->
  ascending (index (pd_concat a b)) = true /\
  columns (pd_concat a b) = columns a ++ columns b /\
  forall t,
    row_at t (rows (pd_concat a b))
    = outer_join_row (List.length (columns a)) (List.length (columns b))
        (row_at t (rows a)) (row_at t (rows b)).
Proof.
  intros Ha Hb. split; [|split; [reflexivity|]].
  - apply merge_rows_ascending; assumption.
  - intro t. apply merge_rows_row_at; assumption.
Qed.

Lemma X5_pd_concat_witness :
  ascending (index (pd_concat thirty_days_fred thirty_days_yf)) = true /\
  columns (pd_concat thirty_days_fred thirty_days_yf)
  = columns thirty_days_fred ++ columns thirty_days_yf /\
  forall t,
    row_at t (rows (pd_concat thirty_days_fred thirty_days_yf))
    = outer_join_row (List.length (columns thirty_days_fred))
        (List.length (columns thirty_days_yf))
        (row_at t (rows thirty_days_fred)) (row_at t (rows thirty_days_yf)).
Proof.
  apply (X5_pd_concat_is_the_outer_join thirty_days_fred thirty_days_yf);
    vm_compute; reflexivity.
Defined.

(* ================================================================== *)
(** ** Further properties: the forward fill (line 40) *)

Lemma fill_row_nth (prev cur : list cell) (j : nat) :
  (j < List.length cur)%nat ->
  nth j (fill_row prev cur) NaN = fill_cell (nth j prev NaN) (nth j cur NaN).
Proof.
  revert prev j. induction cur as [|c cur IH]; intros prev j H;
    simpl in H; [lia|].
  destruct j as [|j].
  - destruct prev; reflexivity.
  - simpl. rewrite IH by lia. destruct prev; [|reflexivity].
    destruct j; reflexivity.
Qed.

Lemma ffill_from_nth (prev : list cell) (rs : list row) (i : nat) :
  (i < List.length rs)%nat ->
  nth i (ffill_from prev rs) (0%Z, [])
  = (fst (nth i rs (0%Z, [])),
     fill_row match i with
              | O => prev
              | S i' => snd (nth i' (ffill_from prev rs) (0%Z, []))
              end
              (snd (nth i rs (0%Z, [])))).
Proof.
  revert prev i. induction rs as [|r rs IH]; intros prev i H;
    simpl in H; [lia|].
  destruct i as [|i]; [reflexivity|].
  cbn [ffill_from nth]. rewrite IH by lia.
  destruct i; reflexivity.
Qed.

(** X6: the forward fill keeps the index and every value that is there,
    and puts in a missing cell what the filled table has in the same
    column one row earlier (NaN in the first row). *)
Theorem X6_forward_fill (df : DataFrame) (i j : nat) :
  (i < List.length (rows df))%nat ->
  (j < List.length (snd (nth i (rows df) (0%Z, []))))%nat ->
  let filled := rows (fillna_ffill df) in
  index (fillna_ffill df) = index df /\
  cell_at filled i j
  = match cell_at (rows df) i j with
    | Some v => Some v
    | None => match i with
              | O => NaN
              | S i' => cell_at filled i' j
              end
    end.
Proof.
  intros Hi Hj. cbn zeta. split; [apply ffill_from_index|].
  unfold cell_at. cbn [fillna_ffill rows].
  rewrite (ffill_from_nth [] (rows df) i Hi). cbn [snd].
  rewrite (fill_row_nth _ _ j Hj). unfold fill_cell.
  destruct (nth j (snd (nth i (rows df) (0%Z, []))) NaN); [reflexivity|].
  destruct i; [destruct j; reflexivity | reflexivity].
Qed.

Lemma X6_forward_fill_witness :
  let df := resample_D_mean (pd_concat thirty_days_fred thirty_days_yf) in
  let filled := rows (fillna_ffill df) in
  index (fillna_ffill df) = index df /\
  cell_at filled 3 0
  = match cell_at (rows df) 3 0 with
    | Some v => Some v
    | None => cell_at filled 2 0
    end.
Proof.
  apply (X6_forward_fill
           (resample_D_mean (pd_concat thirty_days_fred thirty_days_yf))
           3 0); vm_compute; lia.
Defined.

(* ================================================================== *)
(** ** Further properties: writing a column (lines 44, 46, 48) *)

(** X7: assigning to a rectangular table a column of its own rows (as
    many values as rows, in row order, as lines 44-48 compute them)
    returns a rectangular table with the same index in which the label
    reads back the assigned values and every other label reads what it
    read before. *)
Theorem X7_setitem_then_getitem (df : DataFrame) (name : string)
    (s : list cell) :
  wf df -> List.length s = List.length (rows df) ->
  exists df',
    setitem df name s = Returned df' /\
    getitem df' name = Returned s /\
    (forall name', name' <> name ->
                   getitem df' name' = getitem df name') /\
    index df' = index df /\ wf df'.
Proof.
  intros Hwf Hlen.
  destruct (setitem_returns df name s Hlen) as [df' Hset].
  exists df'. split; [exact Hset|].
  split; [apply (getitem_setitem_same _ _ _ Hwf Hlen _ Hset)|].
  split; [intros name' Hne;
          apply (getitem_setitem_other _ _ _ Hwf Hlen _ Hset _ Hne)|].
  split; [apply (setitem_index _ _ _ Hlen _ Hset)
         | apply (setitem_wf _ _ _ Hwf Hlen _ Hset)].
Qed.

Lemma X7_setitem_witness :
  exists df',
    setitem six_days_cleaned "WALCL" six_values = Returned df' /\
    getitem df' "WALCL" = Returned six_values /\
    (forall name', name' <> "WALCL"%string ->
                   getitem df' name' = getitem six_days_cleaned name') /\
    index df' = index six_days_cleaned /\ wf df'.
Proof.
  apply (X7_setitem_then_getitem six_days_cleaned "WALCL" six_values).
  - apply (cleaned_wf six_days_fred six_days_yf).
  - vm_compute. reflexivity.
Defined.

(* ================================================================== *)
(** ** Further properties: the rolling mean on any column (line 48) *)

Lemma present_length_all (l : list cell) :
  List.length (present l) = List.length l <-> forallb notna l = true.
Proof.
  induction l as [|[q|] l IH]; simpl.
  - tauto.
  - rewrite <- IH. split; lia.
  - pose proof (present_length_le l). split; [lia | discriminate].
Qed.

Lemma forallb_notna_false (l : list cell) :
  forallb notna l = false <->
  exists k, (k < List.length l)%nat /\ nth k l NaN = NaN.
Proof.
  induction l as [|[q|] l IH]; simpl.
  - split; [discriminate | intros (k & H & _); lia].
  - rewrite IH. split.
    + intros (k & Hk & E). exists (S k). split; [lia | exact E].
    + intros ([|k] & Hk & E); [discriminate|]. exists k. split; [lia|exact E].
  - split; [intros _; exists 0%nat; split; [lia | reflexivity] | reflexivity].
Qed.

(** X8: the rolling mean over a window of [window] rows is missing at a
    row exactly when the row has fewer than [window] rows up to it or
    one of the [window] values that end at it is missing. *)
Theorem X8_rolling_mean_is_missing (window i : nat) (s : list cell) :
  (0 < window)%nat -> (i < List.length s)%nat ->
  nth i (rolling_mean window s) NaN = NaN <->
  (S i < window)%nat \/
  exists k, (k < window)%nat /\ nth (S i - window + k) s NaN = NaN.
Proof.
  intros Hw Hi. rewrite (rolling_mean_nth _ _ _ Hi). unfold window_mean.
  pose proof (trailing_length window i s Hi) as Lt.
  pose proof (present_length_le (trailing window i s)) as Lp.
  destruct (Nat.lt_ge_cases (S i) window) as [Hlt|Hge].
  - destruct (Nat.eqb_spec (List.length (present (trailing window i s)))
                window); [lia|].
    split; [intros _; left; exact Hlt | reflexivity].
  - assert (Lt' : List.length (trailing window i s) = window) by lia.
    destruct (forallb notna (trailing window i s)) eqn:A.
    + pose proof (proj2 (present_length_all _) A) as E.
      rewrite E, Lt', Nat.eqb_refl, mean_present.
      * split; [discriminate|]. intros [H|(k & Hk & N)]; [lia|].
        exfalso. rewrite <- (trailing_nth window i k s Hge Hk) in N.
        pose proof (notna_nth _ k A) as M. rewrite N in M.
        specialize (M ltac:(lia)). discriminate.
      * intro N. rewrite N in E. simpl in E. lia.
    + destruct (Nat.eqb_spec (List.length (present (trailing window i s)))
                  window) as [E|E].
      * rewrite <- Lt' in E at 2. apply present_length_all in E.
        rewrite E in A. discriminate.
      * split; [|reflexivity]. intros _. right.
        apply forallb_notna_false in A. destruct A as (k & Hk & N).
        exists k. split; [lia|].
        rewrite <- (trailing_nth window i k s Hge) by lia. exact N.
Qed.

Lemma X8_rolling_mean_witness :
  nth 2 (rolling_mean 2 gap_series) NaN = NaN <->
  (3 < 2)%nat \/
  exists k, (k < 2)%nat /\ nth (3 - 2 + k) gap_series NaN = NaN.
Proof.
  apply (X8_rolling_mean_is_missing 2 2 gap_series); simpl; lia.
Defined.

(* ================================================================== *)
(** ** Further properties: the delta and the first lines of the page *)

Lemma bind_lift_Returned {A B} (a : A) (k : A -> script B) :
  bind (lift (Returned a)) k = k a.
Proof. unfold bind, lift. destruct (k a). reflexivity. Qed.

Lemma bind_lift_Raised {A B} (e : exn) (k : A -> script B) :
  bind (lift (Raised e)) k = ([], Raised e).
Proof. reflexivity. Qed.

Lemma bind_emit {B} (e : element) (k : unit -> script B) :
  bind (emit e) k = (e :: fst (k tt), snd (k tt)).
Proof. unfold bind, emit. destruct (k tt). reflexivity. Qed.

(** X9: the liquidity delta of a table is IndexError when the table has
    fewer than five rows, KeyError when it has no Net_Liquidity column,
    and otherwise Net_Liquidity of the last row minus Net_Liquidity of
    the fifth row from the end. *)
Theorem X9_liq_diff_by_cases (df : DataFrame) :
  liq_diff df
  = if (List.length (rows df) <? 5)%nat then Raised IndexError
    else match getitem df "Net_Liquidity" with
         | Returned liq =>
             Returned (cell_sub (nth (List.length (rows df) - 1) liq NaN)
                                (nth (List.length (rows df) - 5) liq NaN))
         | Raised _ => Raised (KeyError "Net_Liquidity")
         end.
Proof.
  destruct (Nat.ltb_spec (List.length (rows df)) 5) as [H|H].
  - unfold liq_diff.
    assert (E5 : iloc df (-5) = Raised IndexError)
      by (apply (iloc_too_short df 5); exact H).
    rewrite E5. destruct (iloc df (-1)) as [last|e] eqn:E1; [reflexivity|].
    destruct (iloc_cases df (-1)) as [(i & _ & _ & Ei)|[Ei _]];
      rewrite Ei in E1; [discriminate|]. injection E1 as <-. reflexivity.
  - unfold liq_diff.
    assert (E1 : iloc df (-1)
                 = Returned (mkSeries (columns df)
                     (snd (nth (List.length (rows df) - 1) (rows df)
                               (0%Z, [])))))
      by (apply (iloc_from_end df 1); lia).
    assert (E5 : iloc df (-5)
                 = Returned (mkSeries (columns df)
                     (snd (nth (List.length (rows df) - 5) (rows df)
                               (0%Z, [])))))
      by (apply (iloc_from_end df 5); lia).
    rewrite E1, E5, !series_get_row_getitem by lia.
    destruct (getitem df "Net_Liquidity") as [liq|e] eqn:G; [reflexivity|].
    revert G. unfold getitem.
    destruct (get_loc "Net_Liquidity" (columns df)); [discriminate|].
    intro G. injection G as <-. reflexivity.
Qed.

Lemma presenter_starts (df : DataFrame) :
  (5 <= List.length (rows df))%nat ->
  exists log r,
    presenter df = (st_header 1 :: st_info LiquidityHelp :: log, r).
Proof.
  intro H. unfold presenter.
  assert (E1 : iloc df (-1)
               = Returned (mkSeries (columns df)
                   (snd (nth (List.length (rows df) - 1) (rows df)
                             (0%Z, [])))))
    by (apply (iloc_from_end df 1); lia).
  assert (E5 : iloc df (-5)
               = Returned (mkSeries (columns df)
                   (snd (nth (List.length (rows df) - 5) (rows df)
                             (0%Z, [])))))
    by (apply (iloc_from_end df 5); lia).
  rewrite E1, bind_lift_Returned, E5, bind_lift_Returned.
  rewrite bind_emit, bind_emit. eexists. eexists. reflexivity.
Qed.

(** X10: a table of fewer than five rows stops the page with IndexError
    before anything is shown; on a table of five rows or more the page
    begins with the liquidity header and its explanation, whatever
    happens later. *)
Theorem X10_page_needs_five_rows (df : DataFrame) :
  if (List.length (rows df) <? 5)%nat
  then presenter df = ([], Raised IndexError)
  else exists log r,
         presenter df = (st_header 1 :: st_info LiquidityHelp :: log, r).
Proof.
  destruct (Nat.ltb_spec (List.length (rows df)) 5) as [H|H].
  - apply (presenter_too_short df H).
  - apply (presenter_starts df H).
Qed.

(* ================================================================== *)
(** ** Further properties: missing values in the rules *)

(** X11: a missing value never raises an alarm.  A missing spread has
    status normal, a green bar, and never leads to "liquidate"; a missing
    fear index or a missing delta never leads to "buy the dip"; with all
    three missing the recommendation is "hold". *)
Theorem X11_missing_values_in_the_rules :
  status NaN = (Normal, off) /\
  colors [NaN] = [green] /\
  (forall v d, recommended NaN v d <> Some Liquidate) /\
  (forall s d, recommended s NaN d <> Some BuyTheDip) /\
  (forall s v, recommended s v NaN <> Some BuyTheDip) /\
  recommended NaN NaN NaN = Some Hold.
Proof.
  split; [reflexivity|]. split; [reflexivity|].
  split; [|split; [|split; [|reflexivity]]].
  - intros v d. unfold recommended, recommendation. cbn [cell_ge NaN].
    destruct (cell_ge v 25 && cell_gt d 0); discriminate.
  - intros s d. unfold recommended, recommendation.
    destruct (cell_ge s 0.05); [discriminate|]. discriminate.
  - intros s v. unfold recommended, recommendation.
    destruct (cell_ge s 0.05); [discriminate|].
    rewrite andb_false_r. discriminate.
Qed.

(* ================================================================== *)
(** ** Further properties: the page, panel by panel *)

Lemma column_mem (df : DataFrame) (name : string) :
  mem name (columns df) = true ->
  getitem df name = Returned (column df name).
Proof.
  intro H. apply mem_In in H. destruct (getitem_In df name H) as [c Hc].
  unfold column. rewrite Hc. reflexivity.
Qed.

Lemma series_get_last (df : DataFrame) (name : string) (k : nat) :
  mem name (columns df) = true -> (1 <= k <= List.length (rows df))%nat ->
  series_get (mkSeries (columns df)
                (snd (nth (List.length (rows df) - k) (rows df) (0%Z, []))))
             name
  = Returned (from_end df k name).
Proof.
  intros H Hk. rewrite series_get_row_getitem by lia.
  rewrite (column_mem df name H). reflexivity.
Qed.

Lemma series_get_missing (df : DataFrame) (name : string) (i : nat) :
  mem name (columns df) = false -> (i < List.length (rows df))%nat ->
  series_get (mkSeries (columns df) (snd (nth i (rows df) (0%Z, [])))) name
  = Raised (KeyError name).
Proof.
  intros H Hi. rewrite series_get_row_getitem by exact Hi.
  rewrite (getitem_missing df name H). reflexivity.
Qed.

Lemma presenter_page (df : DataFrame) :
  (5 <= List.length (rows df))%nat ->
  forallb (fun t => mem t (columns df)) page_labels = true ->
  presenter df
  = (liquidity_panel df ++ health_panel df ++ sentiment_panel df
       ++ recommendation_block df,
     Returned tt).
Proof.
  intros Hn Hlab. cbn [forallb page_labels] in Hlab.
  rewrite !andb_true_iff in Hlab.
  destruct Hlab as (Mliq & Mtga & Mrrp & Mgspc & Mspread & Mvix & Mmove & _).
  set (n := List.length (rows df)) in *.
  assert (E1 : iloc df (-1)
               = Returned (mkSeries (columns df)
                             (snd (nth (n - 1) (rows df) (0%Z, [])))))
    by (apply (iloc_from_end df 1); lia).
  assert (E5 : iloc df (-5)
               = Returned (mkSeries (columns df)
                             (snd (nth (n - 5) (rows df) (0%Z, [])))))
    by (apply (iloc_from_end df 5); lia).
  unfold liquidity_panel, health_panel, sentiment_panel,
    recommendation_block.
  destruct (recommendation_returns (from_end df 1 "Rate_Spread")
              (from_end df 1 "^VIX")
              (cell_sub (from_end df 1 "Net_Liquidity")
                        (from_end df 5 "Net_Liquidity")))
    as (rlog & r & Hr).
  rewrite Hr. cbn [fst].
  unfold presenter. rewrite E1, E5. subst n.
  cbn [bind lift emit ret].
  rewrite (series_get_last df _ 1 Mliq), (series_get_last df _ 5 Mliq) by lia.
  cbn [bind lift emit ret].
  rewrite (series_get_last df _ 1 Mtga) by lia. cbn [bind lift emit ret].
  rewrite (series_get_last df _ 1 Mrrp) by lia. cbn [bind lift emit ret].
  rewrite (column_mem df _ Mliq). cbn [bind lift emit ret].
  rewrite (column_mem df _ Mgspc). cbn [bind lift emit ret].
  rewrite (series_get_last df _ 1 Mspread) by lia.
  cbn [bind lift emit ret].
  rewrite (column_mem df _ Mspread). cbn [bind lift emit ret].
  rewrite (series_get_last df _ 1 Mvix) by lia. cbn [bind lift emit ret].
  rewrite (series_get_last df _ 1 Mmove) by lia. cbn [bind lift emit ret].
  rewrite (column_mem df _ Mvix). cbn [bind lift emit ret].
  rewrite (column_mem df _ Mmove). cbn [bind lift emit ret].
  rewrite Hr. cbn [bind lift emit ret app]. rewrite app_nil_r.
  reflexivity.
Qed.

(** X12: on a table of five rows or more that has the seven columns the
    page reads, the script ends normally and the page is the liquidity
    panel, the health panel, the sentiment panel and the recommendation,
    in this order, each made of the last row, the fifth row from the end
    and the whole columns: three charts, one status, one conclusion. *)
Theorem X12_the_page_panel_by_panel (df : DataFrame) :
  (5 <= List.length (rows df))%nat ->
  forallb (fun t => mem t (columns df)) page_labels = true ->
  presenter df
  = (liquidity_panel df ++ health_panel df ++ sentiment_panel df
       ++ recommendation_block df,
     Returned tt) /\
  List.length (filter is_chart (fst (presenter df))) = 3%nat.
Proof.
  intros Hn Hlab. pose proof (presenter_page df Hn Hlab) as E.
  split; [exact E|]. rewrite E. cbn [fst].
  unfold liquidity_panel, health_panel, sentiment_panel,
    recommendation_block.
  rewrite !filter_app. cbn [filter is_chart app List.length].
  assert (R : filter is_chart
                (fst (recommendation (from_end df 1 "Rate_Spread")
                        (from_end df 1 "^VIX")
                        (cell_sub (from_end df 1 "Net_Liquidity")
                                  (from_end df 5 "Net_Liquidity")))) = []).
  { unfold recommendation. destruct (cell_ge _ _); [reflexivity|].
    destruct (_ && _); reflexivity. }
  rewrite R. reflexivity.
Qed.

Lemma X12_the_page_witness :
  presenter thirty_days_table
  = (liquidity_panel thirty_days_table ++ health_panel thirty_days_table
       ++ sentiment_panel thirty_days_table
       ++ recommendation_block thirty_days_table,
     Returned tt) /\
  List.length (filter is_chart (fst (presenter thirty_days_table)))
  = 3%nat.
Proof.
  apply (X12_the_page_panel_by_panel thirty_days_table).
  - vm_compute. lia.
  - vm_compute. reflexivity.
Defined.

(** X13: the page is drawn as the script goes: on a table of five rows
    or more that has the columns of the first two panels and no VIX
    column, the liquidity panel and the health panel are on the page,
    the sentiment panel has its header only, and the script ends with
    KeyError for the VIX. *)
Theorem X13_two_panels_then_KeyError (df : DataFrame) :
  (5 <= List.length (rows df))%nat ->
  forallb (fun t => mem t (columns df))
    ["Net_Liquidity"; "WTREGEN"; "RRPONTSYD"; "^GSPC"; "Rate_Spread"]%string
  = true ->
  mem "^VIX" (columns df) = false ->
  presenter df
  = (liquidity_panel df ++ health_panel df ++ [st_header 3; st_expander],
     Raised (KeyError "^VIX")).
Proof.
  intros Hn Hlab Hvix. cbn [forallb] in Hlab.
  rewrite !andb_true_iff in Hlab.
  destruct Hlab as (Mliq & Mtga & Mrrp & Mgspc & Mspread & _).
  set (n := List.length (rows df)) in *.
  assert (E1 : iloc df (-1)
               = Returned (mkSeries (columns df)
                             (snd (nth (n - 1) (rows df) (0%Z, [])))))
    by (apply (iloc_from_end df 1); lia).
  assert (E5 : iloc df (-5)
               = Returned (mkSeries (columns df)
                             (snd (nth (n - 5) (rows df) (0%Z, [])))))
    by (apply (iloc_from_end df 5); lia).
  unfold liquidity_panel, health_panel.
  unfold presenter. rewrite E1, E5. subst n.
  cbn [bind lift emit ret].
  rewrite (series_get_last df _ 1 Mliq), (series_get_last df _ 5 Mliq) by lia.
  cbn [bind lift emit ret].
  rewrite (series_get_last df _ 1 Mtga) by lia. cbn [bind lift emit ret].
  rewrite (series_get_last df _ 1 Mrrp) by lia. cbn [bind lift emit ret].
  rewrite (column_mem df _ Mliq). cbn [bind lift emit ret].
  rewrite (column_mem df _ Mgspc). cbn [bind lift emit ret].
  rewrite (series_get_last df _ 1 Mspread) by lia.
  cbn [bind lift emit ret].
  rewrite (column_mem df _ Mspread). cbn [bind lift emit ret].
  rewrite (series_get_missing df _ _ Hvix) by lia.
  reflexivity.
Qed.

Lemma X13_two_panels_witness :
  presenter six_days_no_vix_table
  = (liquidity_panel six_days_no_vix_table
       ++ health_panel six_days_no_vix_table ++ [st_header 3; st_expander],
     Raised (KeyError "^VIX")).
Proof.
  apply (X13_two_panels_then_KeyError six_days_no_vix_table).
  - vm_compute. lia.
  - vm_compute. reflexivity.
  - vm_compute. reflexivity.
Defined.

(* ================================================================== *)
(** ** Further properties: what the page can hold *)

Lemma log_bind {A B} (p : element -> bool) (m : script A)
    (k : A -> script B) :
  forallb p (fst m) = true ->
  (forall a, forallb p (fst (k a)) = true) ->
  forallb p (fst (bind m k)) = true.
Proof.
  destruct m as [log [a|e]]; simpl; intros H K; [|exact H].
  specialize (K a). destruct (k a) as [log' r]. simpl in *.
  rewrite forallb_app, H, K. reflexivity.
Qed.

Lemma recommendation_log (p : element -> bool) (s v d : cell) :
  (forall a, p (st_error (Conclusion a)) = true) ->
  (forall r, p (st_error (Because r)) = true) ->
  (forall m, p (st_success m) = true) ->
  (forall m, p (st_info m) = true) ->
  forallb p (fst (recommendation s v d)) = true.
Proof.
  intros H1 H2 H3 H4. unfold recommendation.
  destruct (cell_ge s 0.05); [simpl; rewrite H1, H2; reflexivity|].
  destruct (cell_ge v 25 && cell_gt d 0); simpl;
    rewrite ?H3, ?H4; reflexivity.
Qed.

Lemma presenter_never_reports_fred (df : DataFrame) :
  forallb (fun e => negb (is_fred_failed e)) (fst (presenter df)) = true.
Proof.
  unfold presenter.
  repeat (apply log_bind; [try reflexivity | intro]); try reflexivity.
  apply recommendation_log; reflexivity.
Qed.

Lemma forallb_negb_existsb {A} (p : A -> bool) (l : list A) :
  forallb (fun x => negb (p x)) l = true -> existsb p l = false.
Proof.
  induction l as [|x l IH]; simpl; [reflexivity|].
  rewrite andb_true_iff. intros [H1 H2]. rewrite (IH H2).
  apply negb_true_iff in H1. rewrite H1. reflexivity.
Qed.

(** X15: the message that the FRED fetch failed is on the page exactly
    when the FRED call raised: no other failure of the script (Yahoo, a
    missing column, too few rows) is reported with it, and no page of a
    run in which FRED answered holds it. *)
Theorem X15_FRED_message_iff_FRED_raised (w : world) :
  existsb is_fred_failed (fst (app w)) = true <->
  exists e, get_data_fred w fred_tickers = Raised e.
Proof.
  destruct (get_data_fred w fred_tickers) as [df_fred|e] eqn:Hf.
  - split; [|intros [e He]; discriminate].
    intro H. exfalso.
    assert (N : existsb is_fred_failed (fst (app w)) = false).
    { apply forallb_negb_existsb. unfold app, get_market_data.
      rewrite Hf.
      repeat (apply log_bind; [try reflexivity | intro]); try reflexivity.
      match goal with
      | x : option DataFrame |- _ =>
          destruct x as [df|];
            [apply presenter_never_reports_fred | reflexivity]
      end. }
    rewrite N in H. discriminate.
  - split; [intros _; exists e; reflexivity|]. intros _.
    unfold app, get_market_data. rewrite Hf. reflexivity.
Qed.

Lemma field_missing (prices : list (string * DataFrame)) (name : string) :
  existsb (fun f => String.eqb (fst f) name) prices = false ->
  field prices name = Raised (KeyError name).
Proof.
  induction prices as [|[f df] prices IH]; simpl; [reflexivity|].
  destruct (String.eqb f name); [discriminate|]. exact IH.
Qed.

(** X16: when FRED answers and Yahoo answers without closing prices,
    the lookup of "Close" raises KeyError, which nothing catches: the
    script ends on it with only the spinner below the title. *)
Theorem X16_no_closing_prices (w : world) (df_fred : DataFrame)
    (prices : list (string * DataFrame)) :
  get_data_fred w fred_tickers = Returned df_fred ->
  yf_download w yf_tickers = Returned prices ->
  existsb (fun f => String.eqb (fst f) "Close") prices = false ->
  get_market_data w = ([st_spinner], Raised (KeyError "Close")) /\
  app w = (page_top, Raised (KeyError "Close")).
Proof.
  intros Hf Hy Hc.
  assert (G : get_market_data w = ([st_spinner], Raised (KeyError "Close"))).
  { unfold get_market_data. rewrite Hf, Hy. cbn [bind lift emit ret].
    rewrite (field_missing _ _ Hc). reflexivity. }
  split; [exact G|]. unfold app. rewrite G. reflexivity.
Qed.

Lemma X16_no_closing_prices_witness :
  get_market_data world_no_close
  = ([st_spinner], Raised (KeyError "Close")) /\
  app world_no_close = (page_top, Raised (KeyError "Close")).
Proof.
  apply (X16_no_closing_prices world_no_close six_days_fred
           [("Open"%string, six_days_yf)]); reflexivity.
Defined.

(** X17: the page reads the index and seven columns of the table and
    nothing else: two tables that agree on these give the same page and
    the same end of the script, whatever their other columns hold
    (T10Y2Y, SOFR, IORB, WALCL, Liq_MA20). *)
Theorem X17_the_page_reads_seven_columns (df df' : DataFrame) :
  index df' = index df ->
  (forall name, In name page_labels -> getitem df' name = getitem df name) ->
  presenter df' = presenter df.
Proof. apply presenter_ext. Qed.

Lemma X17_the_page_witness :
  presenter thirty_days_table_blanked = presenter thirty_days_table.
Proof.
  apply (X17_the_page_reads_seven_columns thirty_days_table
           thirty_days_table_blanked).
  - vm_compute. reflexivity.
  - intros name Hn. simpl in Hn.
    repeat (destruct Hn as [<-|Hn]; [vm_compute; reflexivity|]).
    contradiction.
Defined.

(* ================================================================== *)
(** ** Further properties: a series that is never observed *)

Lemma mean_all_missing (l : list cell) :
  (forall c, In c l -> c = NaN) -> mean l = NaN.
Proof.
  intro H. unfold mean.
  assert (E : present l = []).
  { induction l as [|c l IH]; [reflexivity|].
    rewrite (H c (or_introl eq_refl)). simpl. apply IH.
    intros c' Hc'. apply H. right. exact Hc'. }
  rewrite E. reflexivity.
Qed.

Lemma resample_missing_column (df : DataFrame) (j : nat) :
  (forall r, In r (rows df) -> nth j (snd r) NaN = NaN) ->
  forall r, In r (rows (resample_D_mean df)) -> nth j (snd r) NaN = NaN.
Proof.
  intros H r Hr. unfold resample_D_mean in Hr.
  destruct (rows df) as [|r0 rs] eqn:E.
  - rewrite E in Hr. contradiction.
  - cbn [rows] in Hr. apply in_map_iff in Hr. destruct Hr as (d & <- & _).
    cbn [snd]. unfold group_mean.
    destruct (Nat.lt_ge_cases j (List.length (columns df))) as [Hj|Hj].
    + rewrite (nth_indep _ NaN
                 (mean (column_at 0
                    (filter (fun r : row => (day_of (fst r) =? d)%Z)
                            (r0 :: rs)))))
        by (rewrite length_map, length_seq; exact Hj).
      rewrite (map_nth (fun j => mean (column_at j _))).
      rewrite seq_nth by exact Hj. apply mean_all_missing.
      intros c Hc. unfold column_at in Hc. apply in_map_iff in Hc.
      destruct Hc as (r & <- & Hin). apply filter_In in Hin.
      apply H. apply Hin.
    + apply nth_overflow. rewrite length_map, length_seq. exact Hj.
Qed.

Lemma fill_row_missing (prev cur : list cell) (j : nat) :
  nth j prev NaN = NaN -> nth j cur NaN = NaN ->
  nth j (fill_row prev cur) NaN = NaN.
Proof.
  intros Hp Hc.
  destruct (Nat.lt_ge_cases j (List.length cur)) as [Hj|Hj].
  - rewrite fill_row_nth by exact Hj. rewrite Hp, Hc. reflexivity.
  - apply nth_overflow. rewrite fill_row_length. exact Hj.
Qed.

Lemma ffill_missing_column (prev : list cell) (rs : list row) (j : nat) :
  nth j prev NaN = NaN ->
  (forall r, In r rs -> nth j (snd r) NaN = NaN) ->
  forall r, In r (ffill_from prev rs) -> nth j (snd r) NaN = NaN.
Proof.
  revert prev. induction rs as [|r1 rs IH]; intros prev Hp H r Hr;
    simpl in Hr; [contradiction|].
  assert (F : nth j (fill_row prev (snd r1)) NaN = NaN).
  { apply fill_row_missing; [exact Hp|]. apply H. left. reflexivity. }
  destruct Hr as [<-|Hr]; [exact F|].
  apply (IH (fill_row prev (snd r1)) F); [|exact Hr].
  intros r' Hr'. apply H. right. exact Hr'.
Qed.

(** A column without any observation empties the cleaned table. *)
Lemma cleaned_missing_column (a b : DataFrame) (j : nat) :
  (j < List.length (columns a ++ columns b))%nat ->
  (forall r, In r (rows (pd_concat a b)) -> nth j (snd r) NaN = NaN) ->
  rows (cleaned a b) = [].
Proof.
  intros Hj H. unfold cleaned. cbn [dropna rows].
  set (filled := rows (fillna_ffill (resample_D_mean (pd_concat a b)))).
  assert (N : forall r, In r filled -> complete r = false).
  { intros r Hr. unfold complete. apply forallb_notna_false. exists j.
    split.
    - rewrite (fillna_ffill_wf _ (resample_wf (pd_concat a b)) r Hr).
      cbn [fillna_ffill columns]. rewrite resample_columns. exact Hj.
    - revert r Hr. unfold filled. cbn [fillna_ffill rows].
      apply ffill_missing_column; [destruct j; reflexivity|].
      apply resample_missing_column. exact H. }
  induction filled as [|r rs IH]; [reflexivity|]. simpl.
  rewrite (N r (or_introl eq_refl)). apply IH.
  intros r' Hr'. apply N. right. exact Hr'.
Qed.

Lemma valid_panel_rectangular (tickers : list string) (df : DataFrame)
    (r : row) :
  valid_panel tickers df = true -> In r (rows df) ->
  List.length (snd r) = List.length (columns df).
Proof.
  unfold valid_panel. rewrite !andb_true_iff. intros [_ H] Hr.
  rewrite forallb_forall in H. apply Nat.eqb_eq. apply (H r Hr).
Qed.

(** X18: when Yahoo answers with a panel that has the three columns and
    no row, no day has a value in every column: the returned table has
    no rows, and the script ends with IndexError at the last row, with
    nothing of the three panels on the page. *)
Theorem X18_empty_yahoo_panel (w : world) (df_fred df_yf : DataFrame)
    (prices : list (string * DataFrame)) :
  get_data_fred w fred_tickers = Returned df_fred ->
  yf_download w yf_tickers = Returned prices ->
  field prices "Close" = Returned df_yf ->
  valid_panel fred_tickers df_fred = true ->
  valid_panel yf_tickers df_yf = true ->
  rows df_yf = [] ->
  exists df,
    get_market_data w = ([st_spinner], Returned (Some df)) /\
    rows df = [] /\
    app w = (page_top, Raised IndexError).
Proof.
  intros Hf Hy Hc Ha Hb He.
  destruct (transform_valid _ _ Ha Hb)
    as (df & W & G & P & S & I & Ht & T & _).
  pose proof (get_market_data_returns _ _ _ _ _ Hf Hy Hc Ht) as Hg.
  assert (E0 : rows (cleaned df_fred df_yf) = []).
  { apply (cleaned_missing_column _ _ (List.length (columns df_fred))).
    - rewrite length_app.
      rewrite (same_labels_length _ _ (valid_panel_same_labels _ _ Hb)).
      simpl. lia.
    - intros r Hr. unfold pd_concat in Hr. cbn [rows] in Hr.
      rewrite He, merge_rows_nil_r in Hr. apply in_map_iff in Hr.
      destruct Hr as (r0 & <- & Hr0). cbn [pad_right snd].
      rewrite <- (valid_panel_rectangular _ _ _ Ha Hr0).
      rewrite app_nth2, Nat.sub_diag by lia.
      rewrite (same_labels_length _ _ (valid_panel_same_labels _ _ Hb)).
      reflexivity. }
  assert (E : rows df = []).
  { apply length_zero_iff_nil. rewrite (tr_length _ _ _ _ _ _ _ _ T), E0.
    reflexivity. }
  exists df. split; [exact Hg|]. split; [exact E|].
  rewrite (app_presenter w df Hg), (presenter_too_short df).
  - reflexivity.
  - rewrite E. simpl. lia.
Qed.

Lemma X18_empty_yahoo_witness :
  exists df,
    get_market_data world_empty_yahoo
    = ([st_spinner], Returned (Some df)) /\
    rows df = [] /\
    app world_empty_yahoo = (page_top, Raised IndexError).
Proof.
  apply (X18_empty_yahoo_panel world_empty_yahoo six_days_fred empty_yf
           [("Close"%string, empty_yf)]);
    try reflexivity; vm_compute; reflexivity.
Defined.

(* ================================================================== *)
(** ** The derived columns in any arithmetic (lines 39-48) *)

Section AnyArithmeticFacts.

Variable num : Type.
Variable NaN : num.
Variable isna : num -> bool.
Variables sub div : num -> num -> num.
Variable of_int : Z -> num.
Variable day_mean : list num -> num.
Variable rolling_value : nat -> list num -> num.

Local Abbreviation frame := (AnyArithmetic.DataFrame num).
Local Abbreviation arow := (AnyArithmetic.row num).
Local Abbreviation acolumns := (@AnyArithmetic.columns num).
Local Abbreviation arows := (@AnyArithmetic.rows num).
Local Abbreviation aindex := (@AnyArithmetic.index num).
Local Abbreviation agetitem := (AnyArithmetic.getitem NaN).
Local Abbreviation avalue_at := (AnyArithmetic.value_at NaN).
Local Abbreviation asetitem := (@AnyArithmetic.setitem num).
Local Abbreviation aseries_sub := (AnyArithmetic.series_sub sub).
Local Abbreviation aseries_div := (AnyArithmetic.series_div div).
Local Abbreviation aresample := (AnyArithmetic.resample_D_mean NaN day_mean).
Local Abbreviation affill := (AnyArithmetic.fillna_ffill NaN isna).
Local Abbreviation adropna := (AnyArithmetic.dropna isna).
Local Abbreviation aconcat := (AnyArithmetic.pd_concat NaN).
Local Abbreviation acleaned := (AnyArithmetic.cleaned NaN isna day_mean).
Local Abbreviation atransform :=
  (AnyArithmetic.transform NaN isna sub div of_int day_mean rolling_value).
Local Abbreviation arolling_mean := (AnyArithmetic.rolling_mean rolling_value).
Local Abbreviation rectangular := (@AnyArithmetic.wf num).
Local Abbreviation liquidity := (AnyArithmetic.net_liquidity sub div of_int).
Local Abbreviation here := (fun c : num => negb (isna c)).









(** *** The cleaned table (line 40) *)











(** *** The derived columns (lines 44-48) *)














End AnyArithmeticFacts.



(* ================================================================== *)
(** ** Line 44 in binary64 *)

(** X20: in binary64 the difference of line 44 is a difference of
    rounded quotients.  On six valid days with WALCL at 7194000, the
    Treasury account at 700 and then 701, the reverse repos at 400 and
    then 399, the three quotients give the same rational number on every
    day, yet the cell of Net_Liquidity on the last day is above the cell
    of the second day, and their difference, the delta of line 67 on
    this table, is above zero. *)
Theorem X20_Net_Liquidity_is_rounded_in_binary64 :
  exists df x y,
    Binary64.transform Binary64.shift_fred Binary64.shift_yf = Returned df /\
    AnyArithmetic.index df = map day_start [0; 1; 2; 3; 4; 5]%Z /\
    (Binary64.value_at df 1 "WALCL" = Returned (Binary64.of_int 7194000) /\
     Binary64.value_at df 1 "WTREGEN" = Returned (Binary64.of_int 700) /\
     Binary64.value_at df 1 "RRPONTSYD" = Returned (Binary64.of_int 400)) /\
    (Binary64.value_at df 5 "WALCL" = Returned (Binary64.of_int 7194000) /\
     Binary64.value_at df 5 "WTREGEN" = Returned (Binary64.of_int 701) /\
     Binary64.value_at df 5 "RRPONTSYD" = Returned (Binary64.of_int 399)) /\
    (7194000 / 1000000 - 700 / 1000 - 400 / 1000
     == 7194000 / 1000000 - 701 / 1000 - 399 / 1000)%Q /\
    Binary64.value_at df 1 "Net_Liquidity" = Returned x /\
    Binary64.value_at df 5 "Net_Liquidity" = Returned y /\
    PrimFloat.ltb x y = true /\
    PrimFloat.ltb (Binary64.of_int 0) (Binary64.sub y x) = true.
Proof.
  eexists. eexists. eexists.
  split; [vm_compute; reflexivity|].
  repeat split; vm_compute; reflexivity.
Qed.

(* ================================================================== *)
(** ** The missing values of Liq_MA20 (lines 48-56) *)

(** X19: when both providers answer with valid panels,
    [get_market_data] returns a table with exactly the dates of the
    cleaned table of line 40; its column Liq_MA20 has one cell per
    retained date and the cell is missing exactly at the first nineteen
    of them (at all of them when fewer than twenty are retained): the
    table reaches the page with these missing values in it.  The page is
    the same whatever the column holds; with five retained dates or more
    the script ends normally, with fewer it stops on [df.iloc[-1]] or
    [df.iloc[-5]] with IndexError, before it reads any column. *)
Theorem X19_missing_Liq_MA20_reaches_the_page (w : world)
    (df_fred df_yf : DataFrame) (prices : list (string * DataFrame)) :
  get_data_fred w fred_tickers = Returned df_fred ->
  yf_download w yf_tickers = Returned prices ->
  field prices "Close" = Returned df_yf ->
  valid_panel fred_tickers df_fred = true ->
  valid_panel yf_tickers df_yf = true ->
  exists df ma,
    get_market_data w = ([st_spinner], Returned (Some df)) /\
    index df = index (cleaned df_fred df_yf) /\
    getitem df "Liq_MA20" = Returned ma /\
    List.length ma = List.length (index (cleaned df_fred df_yf)) /\
    (forall i, (i < List.length ma)%nat ->
               (nth i ma NaN = NaN <-> (i < 19)%nat)) /\
    (forall s df', setitem df "Liq_MA20" s = Returned df' ->
                   presenter df' = presenter df) /\
    (if (List.length (index (cleaned df_fred df_yf)) <? 5)%nat
     then app w = (page_top, Raised IndexError)
     else exists log, app w = (log, Returned tt)).
Proof.
  intros Hf Hy Hc Ha Hb.
  destruct (transform_valid _ _ Ha Hb)
    as (df & W & G & P & S & I & Ht & T & PW & PG & PP & PS & PI).
  pose proof (get_market_data_returns _ _ _ _ _ Hf Hy Hc Ht) as Hg.
  pose proof (tr_Liq_MA20 _ _ _ _ _ _ _ _ T) as HM.
  pose proof (getitem_length _ _ _ HM) as LM.
  pose proof (tr_length _ _ _ _ _ _ _ _ T) as LT.
  assert (LI : List.length (index (cleaned df_fred df_yf))
               = List.length (rows df)).
  { unfold index. rewrite length_map. symmetry. exact LT. }
  exists df, (rolling_mean 20 (net_liquidity W G P)).
  split; [exact Hg|].
  split; [apply (tr_index _ _ _ _ _ _ _ _ T)|].
  split; [exact HM|].
  split; [rewrite LI; exact LM|].
  split; [|split].
  - intros i Hi. rewrite rolling_mean_length in Hi.
    destruct (rolling_mean_values 20 i (net_liquidity W G P))
      as [Hlow Hhigh];
      [apply all_present_net_liquidity; assumption | exact Hi | lia |].
    split.
    + intro HN. destruct (Nat.lt_ge_cases i 19) as [L|L]; [exact L|].
      destruct Hhigh as (qs & _ & _ & Hm); [lia|].
      rewrite Hm in HN. discriminate.
    + intro L. apply Hlow. lia.
  - intros s df' Hset.
    apply (presenter_ignores_Liq_MA20 _ _ s (tr_wf _ _ _ _ _ _ _ _ T) Hset).
  - rewrite LI.
    destruct (Nat.ltb_spec (List.length (rows df)) 5) as [Hn|Hn].
    + rewrite (app_presenter w df Hg), (presenter_too_short df Hn).
      reflexivity.
    + destruct (presenter_returns df Hn
                  (transformed_page_labels _ _ _ _ _ _ _ _ Ha Hb T))
        as (log & d & Hp & _).
      eexists. rewrite (app_presenter w df Hg), Hp. reflexivity.
Qed.

Lemma X19_missing_Liq_MA20_witness :
  List.length (index (cleaned thirty_days_fred thirty_days_yf)) = 28%nat /\
  exists df ma,
    get_market_data thirty_days = ([st_spinner], Returned (Some df)) /\
    index df = index (cleaned thirty_days_fred thirty_days_yf) /\
    getitem df "Liq_MA20" = Returned ma /\
    List.length ma
    = List.length (index (cleaned thirty_days_fred thirty_days_yf)) /\
    (forall i, (i < List.length ma)%nat ->
               (nth i ma NaN = NaN <-> (i < 19)%nat)) /\
    (forall s df', setitem df "Liq_MA20" s = Returned df' ->
                   presenter df' = presenter df) /\
    (if (List.length (index (cleaned thirty_days_fred thirty_days_yf))
         <? 5)%nat
     then app thirty_days = (page_top, Raised IndexError)
     else exists log, app thirty_days = (log, Returned tt)).
Proof.
  split; [vm_compute; reflexivity|].
  apply (X19_missing_Liq_MA20_reaches_the_page thirty_days thirty_days_fred
           thirty_days_yf [("Close"%string, thirty_days_yf)]);
    try reflexivity; vm_compute; reflexivity.
Defined.
